(** * Popular-post worker (socialapi/workers/popularpost): a shallow embedding

    The worker of [popularpost.go] reacts to interaction events: it looks the
    target message and its channel up, filters ineligible or stale posts, and
    updates a per-day sorted set and a lazily materialised seven-day sorted set
    in Redis.  This development embeds the Go functions one by one, with the
    effects of the code (model lookups, the clock, the logger, Redis and the
    AMQP delivery) as events of a small free monad, and proves the properties
    the specification states about them. *)

From Stdlib Require Import ZArith List String Ascii Bool Lia.
From Stdlib Require Import DecimalString DecimalZ.
From Stdlib Require Import Floats.SpecFloat.
From Stdlib Require Import Reals Lra Zpower.
Import ListNotations.
Local Open Scope string_scope.
Local Open Scope Z_scope.

(** ** Machine integers *)

Module Int64.
Definition min_int : Z := - 2 ^ 63.
Definition max_int : Z := 2 ^ 63 - 1.

(** Two's complement wrap-around of Go's [int64] arithmetic. *)
Definition wrap (z : Z) : Z := (z + 2 ^ 63) mod 2 ^ 64 - 2 ^ 63.

Definition in_range (z : Z) : Prop := min_int <= z <= max_int.

Definition add (a b : Z) : Z := wrap (a + b).
Definition sub (a b : Z) : Z := wrap (a - b).
Definition mul (a b : Z) : Z := wrap (a * b).
Definition neg (a : Z) : Z := wrap (- a).
End Int64.

(** ** IEEE 754 binary64, the [float64] of Go *)

Module Float64.
Definition prec : Z := 53.
Definition emax : Z := 1024.

Definition float64 : Type := spec_float.

Definition add : float64 -> float64 -> float64 := SFadd prec emax.
Definition div : float64 -> float64 -> float64 := SFdiv prec emax.
Definition eqb : float64 -> float64 -> bool := SFeqb.
Definition ltb : float64 -> float64 -> bool := SFltb.

(** The conversion [float64(n)] of an integer, rounding to nearest even. *)
Definition of_Z (n : Z) : float64 := binary_normalize prec emax n 0 false.

Definition zero : float64 := S754_zero false.
Definition one : float64 := of_Z 1.
End Float64.

(** ** The part of Go's [time] package the worker uses *)

Module GoTime.

(** A [time.Duration] is an [int64] count of nanoseconds. *)
Definition Duration : Type := Z.

Definition Nanosecond : Duration := 1.
Definition Second : Duration := 1000000000.
Definition Minute : Duration := Int64.mul 60 Second.
Definition Hour : Duration := Int64.mul 60 Minute.

Definition minDuration : Duration := Int64.min_int.
Definition maxDuration : Duration := Int64.max_int.

(** A [*time.Location]: the offset east of UTC, in seconds, in effect at a
    given Unix time. *)
Record Location : Type := { zone_offset : Z -> Z }.

Definition UTCLoc : Location := {| zone_offset := fun _ => 0 |}.
Definition FixedZone (offset : Z) : Location :=
  {| zone_offset := fun _ => offset |}.

(** A [time.Time] without a monotonic clock reading: seconds since the Unix
    epoch, nanoseconds within the second, and the location the wall clock is
    read in.  Go keeps the seconds in an [int64]; the timestamps of this
    program are centuries away from its limits and the model leaves the
    seconds unbounded. *)
Record Time : Type := {
  unix_sec : Z;
  nsec : Z;
  loc : Location
}.

(** Seconds between January 1, year 1 and January 1, 1970 (UTC). *)
Definition unixToInternal : Z := 62135596800.

(** The zero [Time]: January 1, year 1, 00:00:00.000000000 UTC. *)
Definition zeroTime : Time :=
  {| unix_sec := - unixToInternal; nsec := 0; loc := UTCLoc |}.

Definition IsZero (t : Time) : bool :=
  (unix_sec t + unixToInternal =? 0) && (nsec t =? 0).

Definition Unix (t : Time) : Z := unix_sec t.

Definition UTC (t : Time) : Time :=
  {| unix_sec := unix_sec t; nsec := nsec t; loc := UTCLoc |}.

(** Seconds of the wall clock of [t], read in its own location. *)
Definition abs (t : Time) : Z := unix_sec t + zone_offset (loc t) (unix_sec t).

Definition Hour_of (t : Time) : Z := (abs t mod 86400) / 3600.
Definition Minute_of (t : Time) : Z := (abs t mod 3600) / 60.
Definition Second_of (t : Time) : Z := abs t mod 60.

(** [t.Add(d)]: integer division and remainder truncate toward zero. *)
Definition Add (t : Time) (d : Duration) : Time :=
  let dsec := Z.quot d 1000000000 in
  let ns := nsec t + Z.rem d 1000000000 in
  if 1000000000 <=? ns then
    {| unix_sec := unix_sec t + (dsec + 1); nsec := ns - 1000000000; loc := loc t |}
  else if ns <? 0 then
    {| unix_sec := unix_sec t + (dsec - 1); nsec := ns + 1000000000; loc := loc t |}
  else
    {| unix_sec := unix_sec t + dsec; nsec := ns; loc := loc t |}.

(** Nanoseconds since the Unix epoch, as an unbounded integer. *)
Definition unix_nano (t : Time) : Z := unix_sec t * 1000000000 + nsec t.

(** [t.Sub(u)]: the difference [t-u], saturated to the range of a
    [Duration].  A timestamp read from the database carries no monotonic clock
    reading, so the difference with [time.Now()] is taken on the wall clock. *)
Definition Sub (t u : Time) : Duration :=
  let d := unix_nano t - unix_nano u in
  if d <? minDuration then minDuration
  else if maxDuration <? d then maxDuration
  else d.

(** [d.Hours()]: the duration as a floating point number of hours. *)
Definition Hours (d : Duration) : Float64.float64 :=
  let hour := Z.quot d Hour in
  let ns := Z.rem d Hour in
  Float64.add (Float64.of_Z hour)
              (Float64.div (Float64.of_Z ns) (Float64.of_Z (60 * 60 * 1000000000))).

End GoTime.

(** ** The part of Go's [fmt] package the worker uses *)

Module Fmt.

(** Operands of [Sprintf]: strings, integers ([int64]) and errors. *)
Inductive Arg : Type :=
| AStr (s : string)
| AInt (n : Z)
| AErr (e : string).

(** Decimal rendering of an integer: a minus sign for negative numbers, no
    leading zeros, ["0"] for zero. *)
Definition FormatInt (n : Z) : string := NilZero.string_of_int (Z.to_int n).

Definition type_name (a : Arg) : string :=
  match a with
  | AStr _ => "string"
  | AInt _ => "int64"
  | AErr _ => "*errors.errorString"
  end.

Definition default_format (a : Arg) : string :=
  match a with
  | AStr s => s
  | AInt n => FormatInt n
  | AErr e => e
  end.

(** Rendering of one operand under one verb.  A verb that does not fit the
    operand's type renders as [%!verb(type=value)]. *)
Definition format_verb (verb : ascii) (a : Arg) : string :=
  let bad := "%!" ++ String verb ("(" ++ type_name a ++ "=" ++ default_format a ++ ")") in
  if Ascii.eqb verb "v" then default_format a
  else if Ascii.eqb verb "d" then
    match a with AInt n => FormatInt n | _ => bad end
  else if Ascii.eqb verb "s" then
    match a with AStr s => s | AErr e => e | AInt _ => bad end
  else bad.

Fixpoint extra_args (args : list Arg) : string :=
  match args with
  | [] => ""
  | [a] => type_name a ++ "=" ++ default_format a
  | a :: rest => type_name a ++ "=" ++ default_format a ++ ", " ++ extra_args rest
  end.

(** [Sprintf] for formats made of literal text, [%%] and one-letter verbs
    without flags. *)
Fixpoint Sprintf (format : string) (args : list Arg) : string :=
  match format with
  | EmptyString =>
      match args with
      | [] => ""
      | _ => "%!(EXTRA " ++ extra_args args ++ ")"
      end
  | String c rest =>
      if Ascii.eqb c "%" then
        match rest with
        | EmptyString => "%!(NOVERB)"
        | String v rest' =>
            if Ascii.eqb v "%" then String "%" (Sprintf rest' args)
            else
              match args with
              | [] => "%!" ++ String v ("(MISSING)" ++ Sprintf rest' [])
              | a :: args' => format_verb v a ++ Sprintf rest' args'
              end
        end
      else String c (Sprintf rest args)
  end.

End Fmt.

(** ** Domain objects of the [models] package, as far as the worker reads them *)

Module Models.

(** A Go [error], identified with its message; [nil] is [None] of
    [option error]. *)
Definition error : Type := string.

(** Modelled from the spec: the moderation marker [models.MetaBits] and its
    method [Is] are not part of the sources; a value is a set of marker bits,
    [Troll] is the moderation ("troll") marker and [Is m b] tells whether
    every bit of [b] is set in [m]. *)
Definition MetaBits : Type := Z.
Definition Troll : MetaBits := 1.
Definition Is (m b : MetaBits) : bool := Z.land m b =? b.

(** Modelled from the spec: the privacy level "public" and the content type
    "post" stand for the constants [models.Channel_PRIVACY_PUBLIC] and
    [models.ChannelMessage_TYPE_POST], which are not part of the sources. *)
Definition Channel_PRIVACY_PUBLIC : string := "public".
Definition ChannelMessage_TYPE_POST : string := "post".

Record Channel : Type := {
  Channel_Id : Z;
  Channel_Name : string;
  Channel_GroupName : string;
  Channel_PrivacyConstant : string;
  Channel_MetaBits : MetaBits
}.

Record ChannelMessage : Type := {
  ChannelMessage_Id : Z;
  ChannelMessage_InitialChannelId : Z;
  ChannelMessage_CreatedAt : GoTime.Time;
  ChannelMessage_TypeConstant : string;
  ChannelMessage_MetaBits : MetaBits
}.

Record Interaction : Type := {
  Interaction_Id : Z;
  Interaction_MessageId : Z;
  Interaction_CreatedAt : GoTime.Time
}.

(** The outcome of a call that returns a value and an error. *)
Inductive result (A : Type) : Type :=
| Ok (a : A)
| Err (e : error).
Arguments Ok {A} a.
Arguments Err {A} e.

End Models.

(** The flag of an [amqp.Delivery] the error handler reads. *)
Record Delivery : Type := {
  DeliveryTag : Z;
  Redelivered : bool
}.

(** ** Effects

    Everything the worker does to the outside world is an event: the two model
    lookups, reading the clock, the two logger methods, the three Redis
    commands and the two acknowledgements of a delivery.  The index of an
    event is the type of the answer the program continues with. *)

Import Models.

Inductive Event : Type -> Type :=
| ChannelMessageById (id : Z) : Event (result ChannelMessage)
| ChannelById (id : Z) : Event (result Channel)
| TimeNow : Event GoTime.Time
| LogError (format : string) (args : list Fmt.Arg) : Event unit
| LogDebug (format : string) (args : list Fmt.Arg) : Event unit
| RedisExists (key : string) : Event bool
| RedisSortedSetIncrBy (key : string) (incrBy : Z) (item : Z) : Event (option error)
| RedisSortedSetsUnion (destination : string) (keys : list string)
    (weights : list Float64.float64) (aggregate : string) : Event (option error)
| DeliveryAck (d : Delivery) (multiple : bool) : Event (option error)
| DeliveryNack (d : Delivery) (multiple requeue : bool) : Event (option error).

(** Programs: finite trees of events. *)
Inductive Prog (A : Type) : Type :=
| Ret (a : A)
| Vis (R : Type) (e : Event R) (k : R -> Prog A).
Arguments Ret {A} a.
Arguments Vis {A R} e k.

Fixpoint bind {A B : Type} (p : Prog A) (f : A -> Prog B) : Prog B :=
  match p with
  | Ret a => f a
  | Vis e k => Vis e (fun r => bind (k r) f)
  end.

Definition trigger {R : Type} (e : Event R) : Prog R := Vis e Ret.

Notation "x <- p ;; q" := (bind p (fun x => q))
  (at level 61, p at next level, right associativity).
Notation "p ;;; q" := (bind p (fun _ => q))
  (at level 61, right associativity).

(** One event together with the answer it received. *)
Inductive Call : Type :=
| MkCall (R : Type) (e : Event R) (r : R).
Arguments MkCall {R} e r.

(** An environment answers every event from a state of its own: the database
    behind the lookups, the clock, the Redis server with its failures, the
    broker. *)
Record Env : Type := {
  St : Type;
  answer : forall R : Type, Event R -> St -> R * St
}.

(** Running a program against an environment gives its result, the calls it
    made in order, and the final state of the environment. *)
Fixpoint run {A : Type} (E : Env) (p : Prog A) (s : St E) : A * list Call * St E :=
  match p with
  | Ret a => (a, [], s)
  | Vis e k =>
      let (r, s') := answer E _ e s in
      let '(a, tr, s'') := run E (k r) s' in
      (a, MkCall e r :: tr, s'')
  end.

Definition result_of {A : Type} {S : Type} (x : A * list Call * S) : A := fst (fst x).
Definition trace_of {A : Type} {S : Type} (x : A * list Call * S) : list Call := snd (fst x).

(** The Score Store commands of a trace, with their answers. *)
Inductive StoreCall : Type :=
| SExists (key : string) (found : bool)
| SIncrBy (key : string) (incrBy : Z) (item : Z) (err : option error)
| SUnion (destination : string) (keys : list string)
    (weights : list Float64.float64) (aggregate : string) (err : option error).

Definition store_call (c : Call) : option StoreCall :=
  match c with
  | MkCall e r =>
      match e in Event R return R -> option StoreCall with
      | RedisExists key => fun b => Some (SExists key b)
      | RedisSortedSetIncrBy key n item => fun err => Some (SIncrBy key n item err)
      | RedisSortedSetsUnion dst keys ws agg => fun err => Some (SUnion dst keys ws agg err)
      | _ => fun _ => None
      end r
  end.

Fixpoint store_calls (tr : list Call) : list StoreCall :=
  match tr with
  | [] => []
  | c :: rest =>
      match store_call c with
      | Some sc => sc :: store_calls rest
      | None => store_calls rest
      end
  end.

(** ** The worker: [popularpost.go] *)

Import GoTime.

Section Worker.

(** [config.MustGet().Environment], the outermost segment of every key. *)
Variable Environment : string.

(** [time.Time.String], the rendering [%v] gives a [time.Time]. *)
Variable TimeString : Time -> string.

Definition PopularPostKey : string := "popularpost".

Definition DefaultErrHandler (delivery : Delivery) (err : error) : Prog bool :=
  if Redelivered delivery then
    trigger (LogError "Redelivered message gave error again, putting to maintenance queue"
                      [Fmt.AErr err]) ;;;
    trigger (DeliveryAck delivery false) ;;;
    Ret true
  else
    trigger (LogError "an error occured putting message back to queue" [Fmt.AErr err]) ;;;
    trigger (DeliveryNack delivery false true) ;;;
    Ret false.

(** *** Time helpers *)

Definition getStartOfDay (t : Time) : Time :=
  let start := Int64.mul (Int64.neg (Hour_of t)) Hour in
  let start := Int64.sub start (Int64.mul (Minute_of t) Minute) in
  let start := Int64.sub start (Int64.mul (Second_of t) Second) in
  Add t start.

Definition getXDaysAgo (t : Time) (days : Z) : Time :=
  let daysAgo := Int64.mul (Int64.mul (Int64.neg Hour) 24) days in
  Add t daysAgo.

(** The comparison [delta.Hours()/24 > 7] at a given reading of the clock. *)
Definition moreThan7Days (now createdAt : Time) : bool :=
  let delta := Sub now createdAt in
  Float64.ltb (Float64.of_Z 7) (Float64.div (Hours delta) (Float64.of_Z 24)).

Definition createdMoreThan7DaysAgo (createdAt : Time) : Prog bool :=
  now <- trigger TimeNow ;;
  Ret (moreThan7Days now createdAt).

(** *** Key helpers *)

Definition PreparePopularPostKey (group channelName : string) (day : Z) : string :=
  Fmt.Sprintf "%s:%s:%s:%s:%d"
    [Fmt.AStr Environment; Fmt.AStr group; Fmt.AStr PopularPostKey;
     Fmt.AStr channelName; Fmt.AInt day].

Definition GetDailyKey (c : Channel) (date : Time) : Prog string :=
  date <- (if IsZero date then now <- trigger TimeNow ;; Ret (UTC now) else Ret date) ;;
  let unix := Unix (getStartOfDay date) in
  Ret (PreparePopularPostKey (Channel_GroupName c) (Channel_Name c) unix).

Definition GetSevenDayKey (c : Channel) (cm : ChannelMessage) : Prog string :=
  postCreatedAtKey <- GetDailyKey c (ChannelMessage_CreatedAt cm) ;;
  let date := getStartOfDay (ChannelMessage_CreatedAt cm) in
  let sevenDaysAgo := Unix (getXDaysAgo date 7) in
  Ret (Fmt.Sprintf "%d-%d" [Fmt.AStr postCreatedAtKey; Fmt.AInt sevenDaysAgo]).

(** *** Eligibility *)

Definition notEligibleForPopularPost (c : Channel) (cm : ChannelMessage) : bool :=
  if Is (Channel_MetaBits c) Troll then true
  else if negb (String.eqb (Channel_PrivacyConstant c) Channel_PRIVACY_PUBLIC) then true
  else if Is (ChannelMessage_MetaBits cm) Troll then true
  else if negb (String.eqb (ChannelMessage_TypeConstant cm) ChannelMessage_TYPE_POST) then true
  else false.

(** *** Buckets *)

Definition saveToDailyBucket (c : Channel) (cm : ChannelMessage) (i : Interaction)
    (incrementCount : Z) : Prog (option error) :=
  key <- GetDailyKey c (ChannelMessage_CreatedAt cm) ;;
  err <- trigger (RedisSortedSetIncrBy key incrementCount (ChannelMessage_Id cm)) ;;
  Ret err.

(** The body of the loop [for i := 0; i <= 7; i++], run for the values of
    [i] in [days], appending to [keys] and [weights]. *)
Fixpoint combinedBucketLoop (c : Channel) (from : Time) (days : list Z)
    (keys : list string) (weights : list Float64.float64)
    : Prog (list string * list Float64.float64) :=
  match days with
  | [] => Ret (keys, weights)
  | i :: days' =>
      let currentDate := getXDaysAgo from i in
      key <- GetDailyKey c currentDate ;;
      let keys := (keys ++ [key])%list in
      let weight := Float64.of_Z i in
      let weight := if Float64.eqb weight Float64.zero then Float64.one else weight in
      let weights := (weights ++ [Float64.div Float64.one weight])%list in
      combinedBucketLoop c from days' keys weights
  end.

Definition createSevenDayCombinedBucket (c : Channel) (cm : ChannelMessage)
    (key : string) (from : Time) : Prog (option error) :=
  let aggregate := "SUM" in
  let from := getStartOfDay from in
  kw <- combinedBucketLoop c from [0; 1; 2; 3; 4; 5; 6; 7] [] [] ;;
  err <- trigger (RedisSortedSetsUnion key (fst kw) (snd kw) aggregate) ;;
  Ret err.

Definition saveToSevenDayBucket (c : Channel) (cm : ChannelMessage) (i : Interaction)
    (incrementCount : Z) : Prog (option error) :=
  key <- GetSevenDayKey c cm ;;
  let from := getStartOfDay (ChannelMessage_CreatedAt cm) in
  exists_ <- trigger (RedisExists key) ;;
  if negb exists_ then
    err <- createSevenDayCombinedBucket c cm key from ;;
    match err with
    | Some e => Ret (Some e)
    | None =>
        err <- trigger (RedisSortedSetIncrBy key incrementCount (ChannelMessage_Id cm)) ;;
        Ret err
    end
  else
    err <- trigger (RedisSortedSetIncrBy key incrementCount (ChannelMessage_Id cm)) ;;
    Ret err.

(** *** The handler *)

Definition handleInteraction (incrementCount : Z) (i : Interaction) : Prog (option error) :=
  r <- trigger (ChannelMessageById (Interaction_MessageId i)) ;;
  match r with
  | Err e => Ret (Some e)
  | Ok cm =>
      r <- trigger (ChannelById (ChannelMessage_InitialChannelId cm)) ;;
      match r with
      | Err e => Ret (Some e)
      | Ok c =>
          if notEligibleForPopularPost c cm then
            trigger (LogError
                       (Fmt.Sprintf "Not eligible Interaction Id:%d"
                                    [Fmt.AInt (Interaction_Id i)]) []) ;;;
            Ret None
          else
            stale <- createdMoreThan7DaysAgo (ChannelMessage_CreatedAt cm) ;;
            if (stale : bool) then
              trigger (LogDebug
                         (Fmt.Sprintf "Post created more than 7 days ago: %v, %v"
                                      [Fmt.AInt (Interaction_Id i);
                                       Fmt.AStr (TimeString (Interaction_CreatedAt i))]) []) ;;;
              Ret None
            else
              err <- saveToDailyBucket c cm i incrementCount ;;
              match err with
              | Some e => Ret (Some e)
              | None =>
                  err <- saveToSevenDayBucket c cm i incrementCount ;;
                  match err with
                  | Some e => Ret (Some e)
                  | None => Ret None
                  end
              end
      end
  end.

Definition InteractionSaved (i : Interaction) : Prog (option error) :=
  handleInteraction 1 i.

Definition InteractionDeleted (i : Interaction) : Prog (option error) :=
  handleInteraction (-1) i.

End Worker.

(** ** Vocabulary of the specification *)

(** The acknowledgements of a trace. *)
Inductive DeliveryCall : Type :=
| DAck (d : Delivery) (multiple : bool)
| DNack (d : Delivery) (multiple requeue : bool).

Definition delivery_call (c : Call) : option DeliveryCall :=
  match c with
  | MkCall e _ =>
      match e with
      | DeliveryAck d multiple => Some (DAck d multiple)
      | DeliveryNack d multiple requeue => Some (DNack d multiple requeue)
      | _ => None
      end
  end.

Fixpoint delivery_calls (tr : list Call) : list DeliveryCall :=
  match tr with
  | [] => []
  | c :: rest =>
      match delivery_call c with
      | Some dc => dc :: delivery_calls rest
      | None => delivery_calls rest
      end
  end.

Definition requeued (tr : list Call) : bool :=
  existsb (fun dc => match dc with DNack _ _ true => true | _ => false end)
          (delivery_calls tr).

(** Modelled from the spec: the delivery boundary.  A message whose handler
    fails is passed to the error handler; a negative acknowledgement that asks
    for a requeue makes the broker hand the message out again, marked as a
    redelivery; any other outcome ends its life.  [failingDeliveries] lists the
    deliveries of a message whose handler fails every time. *)
Fixpoint failingDeliveries (E : Env) (fuel : nat) (s : St E) (d : Delivery) (err : error)
    : list Delivery :=
  match fuel with
  | O => []
  | S fuel' =>
      let '(_, tr, s') := run E (DefaultErrHandler d err) s in
      d :: (if requeued tr
            then failingDeliveries E fuel' s'
                   {| DeliveryTag := DeliveryTag d + 1; Redelivered := true |} err
            else [])
  end.

(** The UTC calendar day of a timestamp, as a count of days since the epoch. *)
Definition utc_day (t : Time) : Z := Unix t / 86400.

(** A well-formed timestamp has its nanoseconds within one second. *)
Definition wf_time (t : Time) : Prop := 0 <= nsec t < 1000000000.

(** Seven days, in nanoseconds. *)
Definition sevenDays : Z := 7 * 24 * 3600 * 1000000000.

(** The daily key of a non-zero date. *)
Definition dailyKey (Environment : string) (c : Channel) (date : Time) : string :=
  PreparePopularPostKey Environment (Channel_GroupName c) (Channel_Name c)
                        (Unix (getStartOfDay date)).

(** The outcomes of the rolling-window step on the Score Store: the key was
    there and is incremented; the key was absent, the union created it and it
    is incremented; the key was absent and the union failed. *)
Inductive rolling_outcome (key : string) (incr item : Z)
  : list StoreCall -> option error -> Prop :=
| rolling_present (r : option error) :
    rolling_outcome key incr item
      [SExists key true; SIncrBy key incr item r] r
| rolling_created (ks : list string) (ws : list Float64.float64) (r : option error) :
    rolling_outcome key incr item
      [SExists key false; SUnion key ks ws "SUM" None; SIncrBy key incr item r] r
| rolling_union_failed (ks : list string) (ws : list Float64.float64) (e : error) :
    rolling_outcome key incr item
      [SExists key false; SUnion key ks ws "SUM" (Some e)] (Some e).

(** The weight the loop gives offset [i]. *)
Definition weightOf (i : Z) : Float64.float64 :=
  Float64.div Float64.one
    (if Float64.eqb (Float64.of_Z i) Float64.zero then Float64.one else Float64.of_Z i).

(** The key the loop computes for one offset: what [GetDailyKey] returns for
    the day [i] days before [from], at the moment the loop reaches it. *)
Definition key_of_offset (env : string) (E : Env) (c : Channel) (from : Time)
    (i : Z) (k : string) : Prop :=
  exists si : St E, k = result_of (run E (GetDailyKey env c (getXDaysAgo from i)) si).

(** The Score Store commands of one handled interaction whose lookups gave
    the message [cm] and the channel [c], and its result.  [skipped] tells
    whether the message is ineligible or stale, and [sd] is the state of the
    environment when the updates begin.  A skipped interaction issues nothing
    and succeeds.  Every other interaction begins with the daily increment:
    failed, it is the only command and its error is returned; successful, it
    is followed by the commands of the rolling-window step, on the rolling key
    computed after the daily update, and the outcome of that step is
    returned. *)
Definition handled_updates (env : string) (E : Env) (n : Z)
    (c : Channel) (cm : ChannelMessage) (i : Interaction)
    (skipped : bool) (sd : St E)
    (calls : list StoreCall) (err : option error) : Prop :=
  let daily := result_of (run E (GetDailyKey env c (ChannelMessage_CreatedAt cm)) sd) in
  let sr := snd (run E (saveToDailyBucket env c cm i n) sd) in
  if skipped then calls = [] /\ err = None
  else
    (exists e : error,
        calls = [SIncrBy daily n (ChannelMessage_Id cm) (Some e)]
        /\ err = Some e)
    \/ (exists rolling : list StoreCall,
          calls = SIncrBy daily n (ChannelMessage_Id cm) None :: rolling
          /\ rolling_outcome (result_of (run E (GetSevenDayKey env c cm) sr))
                             n (ChannelMessage_Id cm) rolling err).

(** ** An in-memory environment

    A database of messages and channels, a clock that stands still, and a
    Score Store that remembers which keys exist and fails on the keys listed
    in [fake_failing]. *)

Record Fake : Type := {
  fake_now : Time;
  fake_messages : list ChannelMessage;
  fake_channels : list Channel;
  fake_keys : list string;
  fake_failing : list string
}.

Definition has_key (k : string) (ks : list string) : bool :=
  existsb (String.eqb k) ks.

Definition fake_touch (k : string) (f : Fake) : option error * Fake :=
  if has_key k (fake_failing f) then (Some "redis: connection refused", f)
  else (None,
        {| fake_now := fake_now f; fake_messages := fake_messages f;
           fake_channels := fake_channels f;
           fake_keys := if has_key k (fake_keys f) then fake_keys f else k :: fake_keys f;
           fake_failing := fake_failing f |}).

Definition fake_answer (R : Type) (e : Event R) : Fake -> R * Fake :=
  match e in Event R return Fake -> R * Fake with
  | ChannelMessageById id => fun f =>
      (match find (fun m => ChannelMessage_Id m =? id) (fake_messages f) with
       | Some m => Ok m
       | None => Err "record not found"
       end, f)
  | ChannelById id => fun f =>
      (match find (fun c => Channel_Id c =? id) (fake_channels f) with
       | Some c => Ok c
       | None => Err "record not found"
       end, f)
  | TimeNow => fun f => (fake_now f, f)
  | LogError _ _ => fun f => (tt, f)
  | LogDebug _ _ => fun f => (tt, f)
  | RedisExists key => fun f => (has_key key (fake_keys f), f)
  | RedisSortedSetIncrBy key _ _ => fake_touch key
  | RedisSortedSetsUnion dst _ _ _ => fake_touch dst
  | DeliveryAck _ _ => fun f => (None, f)
  | DeliveryNack _ _ _ => fun f => (None, f)
  end.

Definition FakeEnv : Env := {| St := Fake; answer := fake_answer |}.

Definition utc (sec : Z) : Time := {| unix_sec := sec; nsec := 0; loc := UTCLoc |}.

Definition publicChannel : Channel :=
  {| Channel_Id := 7; Channel_Name := "public"; Channel_GroupName := "koding";
     Channel_PrivacyConstant := "public"; Channel_MetaBits := 0 |}.

Definition privateChannel : Channel :=
  {| Channel_Id := 8; Channel_Name := "secret"; Channel_GroupName := "koding";
     Channel_PrivacyConstant := "private"; Channel_MetaBits := 0 |}.

(** A post created on 2014-05-13 at 16:53:20 UTC. *)
Definition aPost : ChannelMessage :=
  {| ChannelMessage_Id := 42; ChannelMessage_InitialChannelId := 7;
     ChannelMessage_CreatedAt := utc 1400000000;
     ChannelMessage_TypeConstant := "post"; ChannelMessage_MetaBits := 0 |}.

Definition aPrivatePost : ChannelMessage :=
  {| ChannelMessage_Id := 43; ChannelMessage_InitialChannelId := 8;
     ChannelMessage_CreatedAt := utc 1400000000;
     ChannelMessage_TypeConstant := "post"; ChannelMessage_MetaBits := 0 |}.

Definition aLike (message : Z) : Interaction :=
  {| Interaction_Id := 1001; Interaction_MessageId := message;
     Interaction_CreatedAt := utc 1400003600 |}.

(** The world one hour after [aPost] was written. *)
Definition fakeWorld : Fake :=
  {| fake_now := utc 1400003600;
     fake_messages := [aPost; aPrivatePost];
     fake_channels := [publicChannel; privateChannel];
     fake_keys := [];
     fake_failing := [] |}.

(** ** Real-number reading of binary64

    The value of a [float64] as a real number, the position of a real number
    between two consecutive multiples of a power of two, and what it means for
    a [float64] to be a rounding of a real number. *)

Definition bpow (e : Z) : R := powerRZ 2 e.

Definition fexp64 (e : Z) : Z := fexp 53 1024 e.

Definition B2R (f : spec_float) : R :=
  match f with
  | S754_finite s m e => ((if s then -1 else 1) * IZR (Zpos m) * bpow e)%R
  | _ => 0%R
  end.

Definition is_finite (f : spec_float) : bool :=
  match f with
  | S754_finite _ _ _ | S754_zero _ => true
  | _ => false
  end.

(** [x] lies in the interval from [m * 2^e] to [(m+1) * 2^e], at the place
    the location [l] names. *)
Definition inbetween_loc (m e : Z) (l : location) (x : R) : Prop :=
  match l with
  | loc_Exact => x = (IZR m * bpow e)%R
  | loc_Inexact Lt => (IZR m * bpow e < x < (IZR m + /2) * bpow e)%R
  | loc_Inexact Eq => x = ((IZR m + /2) * bpow e)%R
  | loc_Inexact Gt => ((IZR m + /2) * bpow e < x < (IZR m + 1) * bpow e)%R
  end.

(** The non-negative numbers a binary64 holds, overflow apart: at most 53
    bits of mantissa, exponent at least -1074. *)
Definition representable (v : R) : Prop :=
  exists m e : Z, v = (IZR m * bpow e)%R /\ 0 <= m < 2 ^ 53 /\ -1074 <= e.

Definition format (v : R) : Prop := representable v \/ representable (- v).

Definition shr_inv (mrs : shr_record) (e : Z) (x : R) : Prop :=
  0 <= shr_m mrs /\ inbetween_loc (shr_m mrs) e (loc_of_shr_record mrs) x.

(** [r] is a finite, canonical [float64] that no number of the format
    separates from [x]: what every rounding of [x] to the format satisfies. *)
Definition rounds_to (x : R) (r : spec_float) : Prop :=
  is_finite r = true /\
  valid_binary 53 1024 r = true /\
  (forall L, format L -> (L <= x)%R -> (L <= B2R r)%R) /\
  (forall U, format U -> (x <= U)%R -> (B2R r <= U)%R).

(** [float64(7)]. *)
Definition seven : spec_float := S754_finite false 7881299347898368 (-50).

(** ** Vocabulary of the further properties *)

(** Whether the character [c] occurs in [s]. *)
Fixpoint has_char (c : ascii) (s : string) : bool :=
  match s with
  | EmptyString => false
  | String a rest => Ascii.eqb a c || has_char c rest
  end.

(** Classes of events, and the calls of a trace that fall in a class. *)
Definition EventClass : Type := forall R : Type, Event R -> bool.

Definition is_log_event : EventClass :=
  fun R e => match e with LogError _ _ | LogDebug _ _ => true | _ => false end.

Definition is_delivery_event : EventClass :=
  fun R e => match e with DeliveryAck _ _ | DeliveryNack _ _ _ => true | _ => false end.

Definition is_data_event : EventClass :=
  fun R e =>
    match e with
    | ChannelMessageById _ | ChannelById _ | TimeNow
    | RedisExists _ | RedisSortedSetIncrBy _ _ _ | RedisSortedSetsUnion _ _ _ _ => true
    | _ => false
    end.

Definition calls_of (P : EventClass) (tr : list Call) : list Call :=
  filter (fun c => match c with MkCall e _ => P _ e end) tr.

(** The logger calls of a trace. *)
Definition log_calls (tr : list Call) : list Call := calls_of is_log_event tr.

(** A program that triggers no event of the class [P], whatever answers it
    receives. *)
Fixpoint avoids {A : Type} (P : EventClass) (p : Prog A) : Prop :=
  match p with
  | Ret _ => True
  | Vis e k => P _ e = false /\ forall r, avoids P (k r)
  end.

(** An increment carries the delta [n] and the member [item]; the other
    commands carry neither. *)
Definition carries (n item : Z) (sc : StoreCall) : Prop :=
  match sc with
  | SIncrBy _ incr member _ => incr = n /\ member = item
  | _ => True
  end.

Definition is_union (sc : StoreCall) : bool :=
  match sc with
  | SUnion _ _ _ _ _ => true
  | _ => false
  end.

Definition is_incr (sc : StoreCall) : bool :=
  match sc with
  | SIncrBy _ _ _ _ => true
  | _ => false
  end.

(** The weights of a list never increase from one offset to the next. *)
Fixpoint non_increasing (ws : list Float64.float64) : bool :=
  match ws with
  | [] => true
  | w :: rest =>
      match rest with
      | [] => true
      | w' :: _ => SFleb w' w && non_increasing rest
      end
  end.

(** The largest number of days [getXDaysAgo] can go back (or forth) before
    the [int64] count of nanoseconds wraps around. *)
Definition maxDays : Z := 106751.


(** The increments of the Score Store, as a class of events. *)
Definition is_incr_event : EventClass :=
  fun R e => match e with RedisSortedSetIncrBy _ _ _ => true | _ => false end.

(** The same command with the delta of an increment replaced by [m]. *)
Definition retarget (m : Z) (sc : StoreCall) : StoreCall :=
  match sc with
  | SIncrBy key _ item err => SIncrBy key m item err
  | _ => sc
  end.

(** A relation between states of an environment under which its replies do
    not depend on the scores it holds: from related states every event gets
    the same answer and leads to related states, also two increments of the
    same member of the same key that differ in their delta. *)
Definition simulation (E : Env) (R : St E -> St E -> Prop) : Prop :=
  (forall (T : Type) (e : Event T) (s s' : St E), R s s' ->
      fst (answer E T e s) = fst (answer E T e s')
      /\ R (snd (answer E T e s)) (snd (answer E T e s')))
  /\ (forall (key : string) (n m item : Z) (s s' : St E), R s s' ->
      fst (answer E _ (RedisSortedSetIncrBy key n item) s)
        = fst (answer E _ (RedisSortedSetIncrBy key m item) s')
      /\ R (snd (answer E _ (RedisSortedSetIncrBy key n item) s))
           (snd (answer E _ (RedisSortedSetIncrBy key m item) s'))).

(** [q] does from a related state what [p] does, with every delta replaced
    by [m]. *)
Definition mirrors (E : Env) (R : St E -> St E -> Prop) (m : Z) {A : Type}
    (p q : Prog A) : Prop :=
  forall s s' : St E, R s s' ->
    result_of (run E q s') = result_of (run E p s)
    /\ store_calls (trace_of (run E q s'))
       = map (retarget m) (store_calls (trace_of (run E p s)))
    /\ R (snd (run E p s)) (snd (run E q s')).

(** A post whose creation timestamp was never set, and a world that holds
    it. *)
Definition anUndatedPost : ChannelMessage :=
  {| ChannelMessage_Id := 44; ChannelMessage_InitialChannelId := 7;
     ChannelMessage_CreatedAt := zeroTime;
     ChannelMessage_TypeConstant := "post"; ChannelMessage_MetaBits := 0 |}.

Definition undatedWorld : Fake :=
  {| fake_now := utc 1400003600;
     fake_messages := [anUndatedPost];
     fake_channels := [publicChannel];
     fake_keys := [];
     fake_failing := [] |}.

(** * Properties *)

(** ** Running programs *)

(** The run of a sequence is the run of its first part followed by the
    run of the rest. *)
Lemma run_bind {A B : Type} (E : Env) (p : Prog A) (f : A -> Prog B) (s : St E) :
  run E (bind p f) s =
  let '(a, tr, s') := run E p s in
  let '(b, tr', s'') := run E (f a) s' in
  (b, (tr ++ tr')%list, s'').
Proof.
  revert s; induction p as [a | R e k IH]; intros s; simpl.
  - destruct (run E (f a) s) as [[b tr'] s'']; reflexivity.
  - destruct (answer E R e s) as [r s1].
    rewrite IH.
    destruct (run E (k r) s1) as [[a tr] s2].
    destruct (run E (f a) s2) as [[b tr'] s3]; reflexivity.
Qed.

Lemma Ret_inj {A : Type} (a b : A) : Ret a = Ret b -> a = b.
Proof. intros [= H]. exact H. Qed.

Lemma store_calls_app (tr1 tr2 : list Call) :
  store_calls (tr1 ++ tr2) = (store_calls tr1 ++ store_calls tr2)%list.
Proof.
  induction tr1 as [| c tr1 IH]; simpl; [reflexivity |].
  destruct (store_call c); simpl; rewrite IH; reflexivity.
Qed.

(** ** Strings and decimal numbers *)

Lemma append_empty_r (s : string) : s ++ "" = s.
Proof. induction s as [| a s IH]; simpl; [| rewrite IH]; reflexivity. Qed.

Lemma append_assoc (a b c : string) : (a ++ b) ++ c = a ++ (b ++ c).
Proof. induction a as [| x a IH]; simpl; [| rewrite IH]; reflexivity. Qed.

Lemma append_inv_head (p a b : string) : p ++ a = p ++ b -> a = b.
Proof.
  induction p as [| c p IH]; simpl; intros H; [exact H |].
  injection H as H. auto.
Qed.

Lemma length_append (a b : string) :
  String.length (a ++ b) = (String.length a + String.length b)%nat.
Proof. induction a as [| c a IH]; simpl; [| rewrite IH]; reflexivity. Qed.

(** Different integers have different decimal renderings. *)
Lemma FormatInt_inj (a b : Z) : Fmt.FormatInt a = Fmt.FormatInt b -> a = b.
Proof.
  unfold Fmt.FormatInt. intros H.
  apply DecimalZ.to_int_inj.
  assert (nz : forall z, Z.to_int z <> Decimal.Pos Decimal.Nil /\
                         Z.to_int z <> Decimal.Neg Decimal.Nil).
  { intros [| p | p]; simpl; split; try discriminate;
      intros [= Hp]; exact (DecimalPos.Unsigned.to_uint_nonnil p Hp). }
  pose proof (NilZero.isi (Z.to_int a) (proj1 (nz a)) (proj2 (nz a))) as Ha.
  pose proof (NilZero.isi (Z.to_int b) (proj1 (nz b)) (proj2 (nz b))) as Hb.
  rewrite H in Ha. rewrite Ha in Hb. injection Hb as Hb. exact Hb.
Qed.

(** ** Keys *)

Lemma PreparePopularPostKey_eq (env group name : string) (day : Z) :
  PreparePopularPostKey env group name day =
  env ++ ":" ++ group ++ ":" ++ "popularpost" ++ ":" ++ name ++ ":" ++ Fmt.FormatInt day.
Proof.
  unfold PreparePopularPostKey. cbn. rewrite append_empty_r. reflexivity.
Qed.

Lemma PreparePopularPostKey_inj (env group name : string) (d1 d2 : Z) :
  PreparePopularPostKey env group name d1 = PreparePopularPostKey env group name d2 ->
  d1 = d2.
Proof.
  rewrite !PreparePopularPostKey_eq. intros H.
  apply append_inv_head in H. injection H as H.
  apply append_inv_head in H. injection H as H.
  apply append_inv_head in H. injection H as H.
  apply FormatInt_inj. exact H.
Qed.

(** ** Time *)

Lemma wrap_in_range (z : Z) : Int64.in_range z -> Int64.wrap z = z.
Proof.
  unfold Int64.in_range, Int64.wrap, Int64.min_int, Int64.max_int. intros H.
  rewrite Z.mod_small; lia.
Qed.

Lemma clock_split (a : Z) :
  (a mod 86400) / 3600 * 3600 + (a mod 3600) / 60 * 60 + a mod 60 = a mod 86400.
Proof.
  pose proof (Z.div_mod a 86400 ltac:(lia)).
  pose proof (Z.mod_pos_bound a 86400 ltac:(lia)).
  pose proof (Z.div_mod a 3600 ltac:(lia)).
  pose proof (Z.mod_pos_bound a 3600 ltac:(lia)).
  pose proof (Z.div_mod a 60 ltac:(lia)).
  pose proof (Z.mod_pos_bound a 60 ltac:(lia)).
  pose proof (Z.div_mod (a mod 86400) 3600 ltac:(lia)).
  pose proof (Z.mod_pos_bound (a mod 86400) 3600 ltac:(lia)).
  pose proof (Z.div_mod (a mod 3600) 60 ltac:(lia)).
  pose proof (Z.mod_pos_bound (a mod 3600) 60 ltac:(lia)).
  lia.
Qed.

(** The offset [getStartOfDay] adds: minus the seconds elapsed since the
    midnight of the wall clock. *)
Lemma startOfDay_offset (t : Time) :
  Int64.sub
    (Int64.sub (Int64.mul (Int64.neg (Hour_of t)) Hour) (Int64.mul (Minute_of t) Minute))
    (Int64.mul (Second_of t) Second)
  = - (abs t mod 86400) * 1000000000.
Proof.
  unfold Hour_of, Minute_of, Second_of.
  pose proof (clock_split (abs t)) as Hsplit.
  pose proof (Z.mod_pos_bound (abs t) 86400 ltac:(lia)) as H1.
  pose proof (Z.mod_pos_bound (abs t) 3600 ltac:(lia)) as H2.
  pose proof (Z.mod_pos_bound (abs t) 60 ltac:(lia)) as H3.
  assert (0 <= (abs t mod 86400) / 3600 < 24) as Hh
      by (split; [apply Z.div_pos; lia | apply Z.div_lt_upper_bound; lia]).
  assert (0 <= (abs t mod 3600) / 60 < 60) as Hm
      by (split; [apply Z.div_pos; lia | apply Z.div_lt_upper_bound; lia]).
  set (h := (abs t mod 86400) / 3600) in *.
  set (m := (abs t mod 3600) / 60) in *.
  set (sec := abs t mod 60) in *.
  change Hour with 3600000000000. change Minute with 60000000000.
  change Second with 1000000000.
  assert (R : forall z, - 2 ^ 62 <= z <= 2 ^ 62 -> Int64.wrap z = z).
  { intros z Hz. apply wrap_in_range.
    unfold Int64.in_range, Int64.min_int, Int64.max_int. lia. }
  unfold Int64.sub, Int64.mul, Int64.neg.
  rewrite (R (- h)) by lia.
  rewrite (R (- h * _)) by lia.
  rewrite (R (m * _)) by lia.
  rewrite (R (sec * _)) by lia.
  rewrite (R (- h * _ - _)) by lia.
  rewrite R by lia.
  lia.
Qed.

Lemma Add_whole_seconds (t : Time) (n : Z) :
  wf_time t ->
  Add t (n * 1000000000) =
  {| unix_sec := unix_sec t + n; nsec := nsec t; loc := loc t |}.
Proof.
  unfold wf_time, Add. intros H.
  rewrite Z.quot_mul by lia. rewrite Z.rem_mul by lia.
  rewrite Z.add_0_r.
  destruct (Z.leb_spec 1000000000 (nsec t)); [lia |].
  destruct (Z.ltb_spec (nsec t) 0); [lia |].
  reflexivity.
Qed.

(** [getStartOfDay] moves a timestamp back to the midnight of its own wall
    clock and keeps its nanoseconds. *)
Lemma getStartOfDay_eq (t : Time) :
  wf_time t ->
  getStartOfDay t =
  {| unix_sec := unix_sec t - abs t mod 86400; nsec := nsec t; loc := loc t |}.
Proof.
  intros H. unfold getStartOfDay. rewrite startOfDay_offset.
  rewrite Add_whole_seconds by exact H.
  reflexivity.
Qed.

Lemma getStartOfDay_utc (t : Time) :
  wf_time t -> loc t = UTCLoc ->
  Unix (getStartOfDay t) = 86400 * utc_day t.
Proof.
  intros H Hl. rewrite getStartOfDay_eq by exact H.
  unfold utc_day, Unix, abs. rewrite Hl.
  cbn [unix_sec zone_offset UTCLoc]. rewrite Z.add_0_r.
  pose proof (Z.div_mod (unix_sec t) 86400 ltac:(lia)). lia.
Qed.

Lemma GetDailyKey_nonzero (env : string) (c : Channel) (date : Time) :
  IsZero date = false ->
  GetDailyKey env c date = Ret (dailyKey env c date).
Proof. intros H. unfold GetDailyKey. rewrite H. reflexivity. Qed.

Lemma GetDailyKey_zero (env : string) (c : Channel) (date : Time) :
  IsZero date = true ->
  GetDailyKey env c date = Vis TimeNow (fun now => Ret (dailyKey env c (UTC now))).
Proof. intros H. unfold GetDailyKey. rewrite H. reflexivity. Qed.

(** ** Rounding in binary64

    The operations of [SpecFloat] round to nearest even.  What the stale-post
    check needs of them is less: the result of an operation is a number of the
    format that no other number of the format separates from the exact
    result, so every bound of the exact result that the format holds is a
    bound of the rounded one. *)

(** *** Powers of two *)

Lemma bpow_pos e : (0 < bpow e)%R.
Proof. apply powerRZ_lt. lra. Qed.

Lemma bpow_add a b : bpow (a + b) = (bpow a * bpow b)%R.
Proof. apply powerRZ_add. lra. Qed.

Lemma bpow_succ a : bpow (a + 1) = (2 * bpow a)%R.
Proof. rewrite bpow_add. unfold bpow at 2. simpl. lra. Qed.

Lemma bpow_nonneg_IZR k : 0 <= k -> bpow k = IZR (2 ^ k).
Proof.
  intros H. unfold bpow.
  rewrite <- (Z2Nat.id k H). rewrite <- pow_powerRZ. rewrite pow_IZR. reflexivity.
Qed.

Lemma bpow_le a b : a <= b -> (bpow a <= bpow b)%R.
Proof.
  intros H. replace b with (a + (b - a)) by lia. rewrite bpow_add.
  rewrite (bpow_nonneg_IZR (b - a)) by lia.
  assert (1 <= 2 ^ (b - a)) by (apply (Z.pow_le_mono_r 2 0 (b - a)); lia).
  apply IZR_le in H0. pose proof (bpow_pos a). nra.
Qed.

Lemma bpow_lt a b : a < b -> (bpow a < bpow b)%R.
Proof.
  intros H. replace b with (a + 1 + (b - a - 1)) by lia.
  rewrite bpow_add, bpow_succ.
  pose proof (bpow_le 0 (b - a - 1) ltac:(lia)) as H1.
  change (bpow 0) with 1%R in H1. pose proof (bpow_pos a). nra.
Qed.

(** *** Number of binary digits *)

Lemma digits2_pos_size p : digits2_pos p = Pos.size p.
Proof. induction p; simpl; congruence. Qed.

Lemma digits2_bounds p :
  2 ^ (Zpos (digits2_pos p) - 1) <= Zpos p < 2 ^ Zpos (digits2_pos p).
Proof.
  rewrite digits2_pos_size. split.
  - pose proof (Pos.size_le p) as H.
    assert (H' : 2 ^ Zpos (Pos.size p) <= 2 * Zpos p).
    { change (2 * Zpos p) with (Zpos (p~0)). rewrite <- Pos2Z.inj_pow. apply Pos2Z.pos_le_pos. exact H. }
    replace (Zpos (Pos.size p)) with (Z.succ (Zpos (Pos.size p) - 1)) in H' by lia.
    rewrite Z.pow_succ_r in H' by lia. lia.
  - pose proof (Pos.size_gt p) as H.
    rewrite <- Pos2Z.inj_pow. apply Pos2Z.pos_lt_pos. exact H.
Qed.

Lemma Zdigits2_bounds m : 0 < m -> 2 ^ (Zdigits2 m - 1) <= m < 2 ^ Zdigits2 m.
Proof. destruct m; try lia. intros _. apply digits2_bounds. Qed.

Lemma Zdigits2_nonneg m : 0 <= Zdigits2 m.
Proof. destruct m; simpl; lia. Qed.

Lemma Zdigits2_pos m : 0 < m -> 0 < Zdigits2 m.
Proof. destruct m; simpl; lia. Qed.

Lemma Zdigits2_le_of_lt m k : 0 <= m -> 0 <= k -> m < 2 ^ k -> Zdigits2 m <= k.
Proof.
  intros Hm Hk H. destruct (Z.eq_dec m 0) as [-> | Hz]; [simpl; lia |].
  pose proof (Zdigits2_bounds m ltac:(lia)) as [Hlo _].
  destruct (Z_le_gt_dec (Zdigits2 m) k) as [| Hgt]; [assumption |].
  assert (2 ^ k <= 2 ^ (Zdigits2 m - 1)) by (apply Z.pow_le_mono_r; lia). lia.
Qed.

Lemma Zdigits2_ge_of_le m k : 0 <= k -> 2 ^ k <= m -> k + 1 <= Zdigits2 m.
Proof.
  intros Hk H.
  assert (0 < m) by (pose proof (Z.pow_pos_nonneg 2 k ltac:(lia) Hk); lia).
  pose proof (Zdigits2_bounds m ltac:(lia)) as [_ Hhi].
  destruct (Z_le_gt_dec (k + 1) (Zdigits2 m)) as [| Hgt]; [assumption |].
  assert (2 ^ Zdigits2 m <= 2 ^ k) by (apply Z.pow_le_mono_r; lia). lia.
Qed.

(** *** Shifting a mantissa right keeps track of the discarded bits *)

Lemma IZR_xO p : IZR (Zpos p~0) = (2 * IZR (Zpos p))%R.
Proof. change (Zpos p~0) with (2 * Zpos p). rewrite mult_IZR. reflexivity. Qed.

Lemma IZR_xI p : IZR (Zpos p~1) = (2 * IZR (Zpos p) + 1)%R.
Proof. change (Zpos p~1) with (2 * Zpos p + 1). rewrite plus_IZR, mult_IZR. reflexivity. Qed.

Lemma shr_1_inv mrs e x : shr_inv mrs e x -> shr_inv (shr_1 mrs) (e + 1) x.
Proof.
  destruct mrs as [m r s]. unfold shr_inv. 
  intros [Hm H]. pose proof (bpow_pos e) as Hb. pose proof (bpow_succ e) as Hs.
  simpl in Hm.
  destruct m as [| p | p]; [| | lia].
  - destruct r, s; simpl in *; rewrite Hs; (split; [lia |]); lra.
  - destruct p as [p | p |]; destruct r, s; simpl in H |- *;
      try rewrite IZR_xI in H; try rewrite IZR_xO in H; rewrite ?Hs;
      (split; [lia |]); nra.
Qed.

Lemma iter_shr_1_inv p : forall mrs e x,
  shr_inv mrs e x -> shr_inv (SpecFloat.iter_pos shr_1 p mrs) (e + Zpos p) x.
Proof.
  induction p as [p IH | p IH |]; intros mrs e x H; simpl SpecFloat.iter_pos.
  - replace (e + Zpos p~1) with (e + 1 + Zpos p + Zpos p) by lia.
    apply IH, IH, shr_1_inv, H.
  - replace (e + Zpos p~0) with (e + Zpos p + Zpos p) by lia.
    apply IH, IH, H.
  - apply shr_1_inv, H.
Qed.

Lemma shr_record_of_loc_inv m l e x :
  0 <= m -> inbetween_loc m e l x -> shr_inv (shr_record_of_loc m l) e x.
Proof.
  intros Hm H. unfold shr_inv.
  destruct l as [| [| |]]; simpl; split; assumption.
Qed.

Lemma shr_inv_shr mrs e n x :
  0 <= n -> shr_inv mrs e x ->
  shr_inv (fst (shr mrs e n)) (e + n) x /\ snd (shr mrs e n) = e + n.
Proof.
  intros Hn H. destruct n as [| p | p]; simpl; [| | lia].
  - rewrite Z.add_0_r. split; [exact H | reflexivity].
  - split; [apply iter_shr_1_inv, H | reflexivity].
Qed.

Lemma inbetween_bounds m e l x :
  inbetween_loc m e l x -> (IZR m * bpow e <= x < (IZR m + 1) * bpow e)%R.
Proof.
  pose proof (bpow_pos e). destruct l as [| [| |]]; simpl; intros; nra.
Qed.

Lemma inbetween_inexact m e l x :
  inbetween_loc m e l x -> l <> loc_Exact -> (IZR m * bpow e < x)%R.
Proof.
  pose proof (bpow_pos e). destruct l as [| [| |]]; simpl; intros; try congruence; nra.
Qed.

Lemma round_nearest_even_bounds m l :
  m <= round_nearest_even m l <= m + 1 /\
  (l = loc_Exact -> round_nearest_even m l = m).
Proof.
  destruct l as [| [| |]]; simpl; try destruct (Z.even m); split; try lia; try congruence; auto.
Qed.

(** *** Rounding a located mantissa *)

Lemma fexp64_eq e : fexp 53 1024 e = Z.max (e - 53) (-1074).
Proof. reflexivity. Qed.

Lemma IZR_bpow_lt a b e : (IZR a * bpow e < IZR b * bpow e)%R -> a < b.
Proof.
  intros H. apply lt_IZR. pose proof (bpow_pos e). nra.
Qed.

Lemma IZR_bpow_le a b e : (IZR a * bpow e <= IZR b * bpow e)%R -> a <= b.
Proof.
  intros H. apply le_IZR. pose proof (bpow_pos e). nra.
Qed.

Lemma bpow_scale m el E :
  E <= el -> (IZR m * bpow el)%R = (IZR (m * 2 ^ (el - E)) * bpow E)%R.
Proof.
  intros H. replace el with (E + (el - E)) at 1 by lia.
  rewrite bpow_add, (bpow_nonneg_IZR (el - E)) by lia.
  rewrite mult_IZR. ring.
Qed.

(** A mantissa of the format at an exponent below [E] is worth less than
    [2^52] units of exponent [E]. *)
Lemma small_exponent_bound m el E :
  0 <= m < 2 ^ 53 -> el < E -> (IZR m * bpow el < IZR (2 ^ 52) * bpow E)%R.
Proof.
  intros Hm H.
  assert (H1 : (IZR m < IZR (2 ^ 53))%R) by (apply IZR_lt; lia).
  assert (H2 : (bpow el <= bpow (E - 1))%R) by (apply bpow_le; lia).
  assert (H3 : bpow E = (2 * bpow (E - 1))%R).
  { replace E with (E - 1 + 1) at 1 by lia. apply bpow_succ. }
  pose proof (bpow_pos el). pose proof (bpow_pos (E - 1)).
  assert (Hm0 : (0 <= IZR m)%R) by (apply IZR_le; lia).
  rewrite H3. change (2 ^ 53) with (2 * 2 ^ 52) in H1. rewrite mult_IZR in H1.
  assert (0 < IZR (2 ^ 52))%R by (apply IZR_lt; lia).
  nra.
Qed.

(** The heart of the matter: [binary_round_aux], given a mantissa that
    locates a real number [x] finely enough, returns a finite canonical float
    whose magnitude [v] is on the same side as [x] of every number of the
    format. *)
Lemma binary_round_aux_spec (s : bool) (mx ex : Z) (lx : location) (x : R) :
  0 <= mx ->
  inbetween_loc mx ex lx x ->
  ex <= fexp64 (Zdigits2 mx + ex) ->
  (x < bpow 1023)%R ->
  exists v : R,
    B2R (binary_round_aux 53 1024 s mx ex lx) = ((if s then -1 else 1) * v)%R /\
    (0 <= v)%R /\
    is_finite (binary_round_aux 53 1024 s mx ex lx) = true /\
    valid_binary 53 1024 (binary_round_aux 53 1024 s mx ex lx) = true /\
    (forall L, representable L -> (L <= x)%R -> (L <= v)%R) /\
    (forall U, representable U -> (x <= U)%R -> (v <= U)%R).
Proof.
  intros Hmx Hx Hex Hov.
  unfold fexp64 in Hex. set (E := fexp 53 1024 (Zdigits2 mx + ex)) in *.
  pose proof (fexp64_eq (Zdigits2 mx + ex)) as HE. fold E in HE.
  pose proof (inbetween_bounds _ _ _ _ Hx) as [Hxlo Hxhi].
  (* the magnitude of x bounds the digits of mx *)
  assert (Hdig : Zdigits2 mx + ex <= 1023).
  { destruct (Z.eq_dec mx 0) as [-> | Hnz].
    - simpl in HE |- *. simpl in E. lia.
    - pose proof (Zdigits2_bounds mx ltac:(lia)) as [Hd _].
      destruct (Z_le_gt_dec (Zdigits2 mx + ex) 1023) as [| Hgt]; [assumption | exfalso].
      apply IZR_le in Hd.
      rewrite <- bpow_nonneg_IZR in Hd by (pose proof (Zdigits2_pos mx ltac:(lia)); lia).
      assert (bpow 1023 <= bpow (Zdigits2 mx - 1 + ex))%R by (apply bpow_le; lia).
      rewrite bpow_add in H. pose proof (bpow_pos ex). nra. }
  (* first shift *)
  unfold binary_round_aux, shr_fexp. fold E.
  destruct (shr_inv_shr (shr_record_of_loc mx lx) ex (E - ex) x ltac:(lia)
              (shr_record_of_loc_inv mx lx ex x Hmx Hx)) as [[Hm1 Hin1] He1].
  destruct (shr (shr_record_of_loc mx lx) ex (E - ex)) as [mrs1 e1].
  simpl in Hm1, Hin1, He1. replace (ex + (E - ex)) with E in * by lia. subst e1.
  set (m1 := shr_m mrs1) in *. set (l1 := loc_of_shr_record mrs1) in *.
  pose proof (inbetween_bounds _ _ _ _ Hin1) as [H1lo H1hi].
  assert (Hm1hi : m1 < 2 ^ 53).
  { destruct (Z.eq_dec mx 0) as [-> | Hnz].
    - apply (IZR_bpow_lt _ _ E). simpl in Hxhi.
      assert (bpow ex <= bpow E)%R by (apply bpow_le; lia).
      assert (1 <= IZR (2 ^ 53))%R by (apply IZR_le; lia).
      pose proof (bpow_pos E). nra.
    - pose proof (Zdigits2_bounds mx ltac:(lia)) as [_ Hd].
      assert (Hd' : mx + 1 <= 2 ^ Zdigits2 mx) by lia.
      apply IZR_le in Hd'. rewrite plus_IZR in Hd'.
      rewrite <- bpow_nonneg_IZR in Hd' by apply Zdigits2_nonneg.
      assert (bpow (Zdigits2 mx + ex) <= bpow (E + 53))%R by (apply bpow_le; lia).
      rewrite !bpow_add in H. rewrite (bpow_nonneg_IZR 53) in H by lia.
      apply (IZR_bpow_lt _ _ E). pose proof (bpow_pos ex). pose proof (bpow_pos E). nra. }
  assert (Hm1lo : -1074 < E -> 2 ^ 52 <= m1).
  { intros HEn.
    assert (Hnz : 0 < mx).
    { destruct (Z.eq_dec mx 0) as [-> | Hnz]; [simpl in HE; lia | lia]. }
    pose proof (Zdigits2_bounds mx ltac:(lia)) as [Hd _].
    apply IZR_le in Hd.
    rewrite <- bpow_nonneg_IZR in Hd by (pose proof (Zdigits2_pos mx ltac:(lia)); lia).
    assert (HEq : Zdigits2 mx - 1 + ex = E + 52) by lia.
    assert (Hb : (bpow (Zdigits2 mx - 1) * bpow ex = IZR (2 ^ 52) * bpow E)%R).
    { rewrite <- bpow_add, HEq, bpow_add, (bpow_nonneg_IZR 52) by lia. ring. }
    assert (Hlt : (IZR (2 ^ 52) * bpow E < IZR (m1 + 1) * bpow E)%R).
    { rewrite plus_IZR. pose proof (bpow_pos ex). nra. }
    apply IZR_bpow_lt in Hlt. lia. }
  (* rounding *)
  destruct (round_nearest_even_bounds m1 l1) as [[Hm2lo Hm2hi] Hm2ex].
  set (m2 := round_nearest_even m1 l1) in *.
  (* value and transfer of bounds *)
  assert (Hlower : forall L, representable L -> (L <= x)%R -> (L <= IZR m2 * bpow E)%R).
  { intros L (ml & el & -> & Hml & Hel) HL.
    assert (Hm12 : (IZR m1 * bpow E <= IZR m2 * bpow E)%R).
    { apply IZR_le in Hm2lo. pose proof (bpow_pos E). nra. }
    destruct (Z_le_gt_dec E el) as [Hle | Hgt].
    - rewrite (bpow_scale ml el E Hle) in HL |- *.
      assert (Hk : ml * 2 ^ (el - E) < m1 + 1).
      { apply (IZR_bpow_lt _ _ E). rewrite (plus_IZR m1). lra. }
      assert (Hk' : ml * 2 ^ (el - E) <= m2) by lia.
      apply IZR_le in Hk'. pose proof (bpow_pos E). nra.
    - pose proof (small_exponent_bound ml el E Hml ltac:(lia)) as Hs.
      pose proof (Hm1lo ltac:(lia)) as H52. apply IZR_le in H52.
      pose proof (bpow_pos E). nra. }
  assert (Hupper : forall U, representable U -> (x <= U)%R -> (IZR m2 * bpow E <= U)%R).
  { intros U (mu & eu & -> & Hmu & Heu) HU.
    destruct (Z_le_gt_dec E eu) as [Hle | Hgt].
    - rewrite (bpow_scale mu eu E Hle) in HU |- *.
      assert (Hk : m2 <= mu * 2 ^ (eu - E)).
      { destruct l1 as [| c] eqn:Hl1.
        - rewrite (Hm2ex eq_refl). apply (IZR_bpow_le _ _ E). lra.
        - assert (Hstrict : (IZR m1 * bpow E < x)%R)
            by (apply (inbetween_inexact _ _ _ _ Hin1); congruence).
          assert (m1 < mu * 2 ^ (eu - E)) by (apply (IZR_bpow_lt _ _ E); lra).
          lia. }
      apply IZR_le in Hk. pose proof (bpow_pos E). nra.
    - exfalso.
      pose proof (small_exponent_bound mu eu E Hmu ltac:(lia)) as Hs.
      pose proof (Hm1lo ltac:(lia)) as H52. apply IZR_le in H52.
      pose proof (bpow_pos E). nra. }
  assert (Hv0 : (0 <= IZR m2 * bpow E)%R).
  { assert (0 <= m2) by lia. apply IZR_le in H. pose proof (bpow_pos E). nra. }
  exists (IZR m2 * bpow E)%R.
  (* second shift *)
  destruct (Z_lt_ge_dec m2 (2 ^ 53)) as [Hsmall | Hbig].
  - assert (Hd2 : Zdigits2 m2 <= 53) by (apply Zdigits2_le_of_lt; lia).
    assert (Hn : fexp 53 1024 (Zdigits2 m2 + E) - E <= 0) by (rewrite fexp64_eq; lia).
    assert (Hshr : shr (shr_record_of_loc m2 loc_Exact) E (fexp 53 1024 (Zdigits2 m2 + E) - E)
                   = (shr_record_of_loc m2 loc_Exact, E)).
    { destruct (fexp 53 1024 (Zdigits2 m2 + E) - E); try lia; reflexivity. }
    rewrite Hshr. simpl shr_m.
    destruct m2 as [| p | p] eqn:Hp; [| | lia].
    + simpl. repeat split; try lra; assumption.
    + assert (HE971 : (E <=? 1024 - 53) = true) by (apply Z.leb_le; lia).
      rewrite HE971. cbn [B2R is_finite].
      split; [ring |]. split; [assumption |]. split; [reflexivity |].
      split; [| split; assumption].
      cbv [valid_binary bounded canonical_mantissa].
      apply andb_true_intro; split; [apply Z.eqb_eq | apply Z.leb_le; lia].
      change (Zpos (digits2_pos p)) with (Zdigits2 (Zpos p)). rewrite fexp64_eq.
      destruct (Z.eq_dec E (-1074)) as [HEm | HEm]; [lia |].
      pose proof (Hm1lo ltac:(lia)).
      pose proof (Zdigits2_ge_of_le (Zpos p) 52 ltac:(lia) ltac:(lia)). lia.
  - assert (Hm2 : m2 = 2 ^ 53) by lia.
    assert (Hshr : shr (shr_record_of_loc m2 loc_Exact) E (fexp 53 1024 (Zdigits2 m2 + E) - E)
                   = ({| shr_m := 2 ^ 52; shr_r := false; shr_s := false |}, E + 1)).
    { rewrite Hm2. rewrite fexp64_eq.
      replace (Z.max (Zdigits2 (2 ^ 53) + E - 53) (-1074) - E) with 1
        by (change (Zdigits2 (2 ^ 53)) with 54; lia).
      reflexivity. }
    rewrite Hshr. cbn [shr_m]. change (2 ^ 52) with (Zpos 4503599627370496).
    assert (HE971 : (E + 1 <=? 1024 - 53) = true) by (apply Z.leb_le; lia).
    rewrite HE971. cbn [B2R is_finite].
    assert (Hval : (IZR (Zpos 4503599627370496) * bpow (E + 1) = IZR m2 * bpow E)%R).
    { rewrite Hm2, bpow_succ. change (2 ^ 53) with (2 * Zpos 4503599627370496).
      rewrite mult_IZR. ring. }
    split; [rewrite <- Hval; ring |].
    split; [assumption |]. split; [reflexivity |].
    split; [| split; assumption].
    cbv [valid_binary bounded canonical_mantissa].
    apply andb_true_intro; split; [apply Z.eqb_eq | apply Z.leb_le; lia].
    rewrite fexp64_eq.
    change (Zpos (digits2_pos 4503599627370496)) with 53. lia.
Qed.

(** *** Rounded operations *)

Lemma representable_nonneg L : representable L -> (0 <= L)%R.
Proof.
  intros (m & e & -> & Hm & _). pose proof (bpow_pos e).
  assert (0 <= IZR m)%R by (apply IZR_le; lia). nra.
Qed.

Lemma rounds_to_exact (r : spec_float) :
  is_finite r = true -> valid_binary 53 1024 r = true -> rounds_to (B2R r) r.
Proof. intros Hf Hv. repeat split; auto. Qed.

Lemma rounds_to_format (x : R) (r : spec_float) :
  format x -> rounds_to x r -> B2R r = x.
Proof.
  intros Hx (_ & _ & Hlo & Hhi).
  apply Rle_antisym; [apply Hhi | apply Hlo]; auto; lra.
Qed.

Lemma rounds_to_signed (s : bool) (x v : R) (r : spec_float) :
  B2R r = ((if s then -1 else 1) * v)%R ->
  (0 <= v)%R ->
  is_finite r = true ->
  valid_binary 53 1024 r = true ->
  (forall L, representable L -> (L <= x)%R -> (L <= v)%R) ->
  (forall U, representable U -> (x <= U)%R -> (v <= U)%R) ->
  (0 < x)%R ->
  rounds_to ((if s then -1 else 1) * x) r.
Proof.
  intros HB Hv Hf Hval Hlo Hhi Hx. repeat split; auto; rewrite HB.
  - intros L [HL | HL] HLx; pose proof (representable_nonneg _ HL) as H0; destruct s.
    + lra.
    + rewrite Rmult_1_l in *. auto.
    + specialize (Hhi (- L)%R HL). lra.
    + lra.
  - intros U [HU | HU] HUx; pose proof (representable_nonneg _ HU) as H0; destruct s.
    + lra.
    + rewrite Rmult_1_l in *. auto.
    + specialize (Hlo (- U)%R HU). lra.
    + lra.
Qed.

Lemma Zdigits2_shift m d : 0 < m -> 0 <= d -> Zdigits2 (m * 2 ^ d) = Zdigits2 m + d.
Proof.
  intros Hm Hd.
  pose proof (Zdigits2_bounds m Hm) as [Hlo Hhi].
  pose proof (Zdigits2_pos m Hm) as Hp.
  pose proof (Z.pow_pos_nonneg 2 d ltac:(lia) Hd) as H2.
  assert (Hle : Zdigits2 (m * 2 ^ d) <= Zdigits2 m + d).
  { apply Zdigits2_le_of_lt; try lia. rewrite Z.pow_add_r by lia. nia. }
  assert (Hge : Zdigits2 m - 1 + d + 1 <= Zdigits2 (m * 2 ^ d)).
  { apply Zdigits2_ge_of_le; try lia. rewrite Z.pow_add_r by lia. nia. }
  lia.
Qed.

(** Aligning a mantissa to a smaller exponent keeps its value and its
    magnitude. *)
Lemma shl_align_spec (mx : positive) (ex ex' : Z) :
  let '(mz, ez) := shl_align mx ex ex' in
  (IZR (Zpos mz) * bpow ez = IZR (Zpos mx) * bpow ex)%R /\
  Zdigits2 (Zpos mz) + ez = Zdigits2 (Zpos mx) + ex /\
  ez = Z.min ex ex'.
Proof.
  unfold shl_align. destruct (ex' - ex) as [| d | d] eqn:Hd.
  - repeat split; lia.
  - repeat split; lia.
  - assert (Hz : Zpos (Pos.iter xO mx d) = Zpos mx * 2 ^ Zpos d).
    { change (Pos.iter xO mx d) with (shift_pos d mx). rewrite shift_pos_correct.
      change (Z.pow_pos 2 d) with (2 ^ Zpos d). ring. }
    rewrite Hz. split; [| split; [| lia]].
    + rewrite (bpow_scale (Zpos mx) ex ex') by lia.
      replace (ex - ex') with (Zpos d) by lia. reflexivity.
    + rewrite Zdigits2_shift; lia.
Qed.

Lemma binary_round_spec (s : bool) (mx : positive) (ex : Z) :
  (IZR (Zpos mx) * bpow ex < bpow 1023)%R ->
  rounds_to ((if s then -1 else 1) * (IZR (Zpos mx) * bpow ex))
            (binary_round 53 1024 s mx ex).
Proof.
  intros Hov. unfold binary_round.
  pose proof (shl_align_spec mx ex (fexp 53 1024 (Zpos (digits2_pos mx) + ex))) as Hs.
  destruct (shl_align mx ex (fexp 53 1024 (Zpos (digits2_pos mx) + ex))) as [mz ez].
  destruct Hs as (Hval & Hdig & Hez).
  change (Zpos (digits2_pos mx)) with (Zdigits2 (Zpos mx)) in Hez.
  destruct (binary_round_aux_spec s (Zpos mz) ez loc_Exact (IZR (Zpos mx) * bpow ex))
    as (v & HB & Hv & Hf & Hvalid & Hlo & Hhi).
  - lia.
  - simpl. symmetry. exact Hval.
  - unfold fexp64. rewrite Hdig. lia.
  - exact Hov.
  - apply (rounds_to_signed s _ v); auto.
    pose proof (bpow_pos ex). assert (0 < IZR (Zpos mx))%R by (apply IZR_lt; lia). nra.
Qed.

Lemma binary_normalize_spec (m e : Z) :
  (Rabs (IZR m * bpow e) < bpow 1023)%R ->
  rounds_to (IZR m * bpow e) (binary_normalize 53 1024 m e false).
Proof.
  intros Hov. pose proof (bpow_pos e) as Hb. destruct m as [| p | p]; simpl binary_normalize.
  - rewrite Rmult_0_l. apply (rounds_to_exact (S754_zero false)); reflexivity.
  - assert (0 < IZR (Zpos p))%R by (apply IZR_lt; lia).
    rewrite Rabs_pos_eq in Hov by nra.
    pose proof (binary_round_spec false p e Hov) as H'.
    cbv iota in H'. rewrite Rmult_1_l in H'. exact H'.
  - assert (0 < IZR (Zpos p))%R by (apply IZR_lt; lia).
    change (Zneg p) with (- Zpos p) in *. rewrite opp_IZR in *.
    replace (- IZR (Zpos p) * bpow e)%R with (- (IZR (Zpos p) * bpow e))%R in * by ring.
    rewrite Rabs_Ropp, Rabs_pos_eq in Hov by nra.
    pose proof (binary_round_spec true p e Hov) as H'.
    cbv iota in H'.
    replace (- (IZR (Zpos p) * bpow e))%R with (-1 * (IZR (Zpos p) * bpow e))%R by ring.
    exact H'.
Qed.

Lemma cond_Zopp_IZR (s : bool) (m : Z) :
  IZR (cond_Zopp s m) = ((if s then -1 else 1) * IZR m)%R.
Proof. destruct s; simpl; [rewrite opp_IZR |]; ring. Qed.

Lemma shl_align_fst (mx : positive) (ex ez : Z) :
  ez <= ex ->
  (IZR (Zpos (fst (shl_align mx ex ez))) * bpow ez = IZR (Zpos mx) * bpow ex)%R.
Proof.
  intros H. pose proof (shl_align_spec mx ex ez) as Hs.
  destruct (shl_align mx ex ez) as [mz ez']. destruct Hs as (Hv & _ & He).
  simpl. replace ez with ez' at 1 by lia. exact Hv.
Qed.

(** The sum of two finite floats is a rounding of the sum of their values. *)
Lemma SFadd_spec (x y : spec_float) :
  is_finite x = true -> is_finite y = true ->
  valid_binary 53 1024 x = true -> valid_binary 53 1024 y = true ->
  (Rabs (B2R x + B2R y) < bpow 1023)%R ->
  rounds_to (B2R x + B2R y) (SFadd 53 1024 x y).
Proof.
  intros Fx Fy Vx Vy Hov.
  destruct x as [sx | sx | | sx mx ex]; try discriminate;
  destruct y as [sy | sy | | sy my ey]; try discriminate.
  - replace (B2R (S754_zero sx) + B2R (S754_zero sy))%R with 0%R by (simpl; ring).
    simpl. destruct sx, sy; apply (rounds_to_exact (S754_zero _)); reflexivity.
  - replace (B2R (S754_zero sx) + B2R (S754_finite sy my ey))%R
      with (B2R (S754_finite sy my ey)) by (simpl; ring).
    apply rounds_to_exact; assumption.
  - replace (B2R (S754_finite sx mx ex) + B2R (S754_zero sy))%R
      with (B2R (S754_finite sx mx ex)) by (simpl; ring).
    apply rounds_to_exact; assumption.
  - unfold SFadd. set (ez := Z.min ex ey).
    pose proof (shl_align_fst mx ex ez ltac:(lia)) as Hx.
    pose proof (shl_align_fst my ey ez ltac:(lia)) as Hy.
    set (ax := fst (shl_align mx ex ez)) in *. set (ay := fst (shl_align my ey ez)) in *.
    assert (Hsum : (IZR (cond_Zopp sx (Zpos ax) + cond_Zopp sy (Zpos ay)) * bpow ez
                    = B2R (S754_finite sx mx ex) + B2R (S754_finite sy my ey))%R).
    { rewrite plus_IZR, !cond_Zopp_IZR. simpl B2R.
      rewrite Rmult_plus_distr_r, !Rmult_assoc, Hx, Hy. ring. }
    rewrite <- Hsum in Hov |- *. apply binary_normalize_spec. exact Hov.
Qed.

(** The location the division reads off the remainder is the place of the
    quotient between two consecutive integers. *)
Lemma new_location_spec (m2 r q e : Z) (x : R) :
  0 < m2 -> 0 <= r < m2 ->
  x = ((IZR q + IZR r / IZR m2) * bpow e)%R ->
  inbetween_loc q e (new_location m2 r) x.
Proof.
  intros Hm2 Hr ->. pose proof (bpow_pos e) as Hb.
  assert (HM : (0 < IZR m2)%R) by (apply IZR_lt; lia).
  set (rho := (IZR r / IZR m2)%R).
  assert (Hrho : (rho * IZR m2 = IZR r)%R) by (unfold rho; field; lra).
  assert (Hrho0 : r = 0 -> rho = 0%R) by (intros ->; unfold rho; field; lra).
  assert (Hpos : r <> 0 -> (0 < rho)%R).
  { intros Hn. assert (0 < IZR r)%R by (apply IZR_lt; lia). nra. }
  assert (Hlt : 2 * r < m2 -> (rho < / 2)%R).
  { intros H. apply IZR_lt in H. rewrite mult_IZR in H. nra. }
  assert (Heq : 2 * r = m2 -> (rho = / 2)%R).
  { intros H. apply (f_equal IZR) in H. rewrite mult_IZR in H. nra. }
  assert (Hgt : m2 < 2 * r -> (/ 2 < rho < 1)%R).
  { intros H. apply IZR_lt in H. rewrite mult_IZR in H.
    assert (IZR r < IZR m2)%R by (apply IZR_lt; lia). nra. }
  unfold new_location, new_location_even, new_location_odd.
  destruct (Z.even m2) eqn:Hev.
  - destruct (Z.eqb_spec r 0) as [Hz | Hz].
    + simpl. rewrite (Hrho0 Hz). ring.
    + specialize (Hpos Hz).
      destruct (Z.compare_spec (2 * r) m2) as [H | H | H]; simpl.
      * rewrite (Heq H). reflexivity.
      * specialize (Hlt H). nra.
      * specialize (Hgt H). nra.
  - destruct (Z.eqb_spec r 0) as [Hz | Hz].
    + simpl. rewrite (Hrho0 Hz). ring.
    + specialize (Hpos Hz).
      assert (Hodd : 2 * r <> m2).
      { intros H. rewrite <- H in Hev. rewrite Z.even_mul in Hev. discriminate. }
      destruct (Z.compare_spec (2 * r + 1) m2) as [H | H | H]; simpl.
      * specialize (Hlt ltac:(lia)). nra.
      * specialize (Hlt ltac:(lia)). nra.
      * specialize (Hgt ltac:(lia)). nra.
Qed.

Lemma SFdiv_core_binary_spec (m1 : positive) (e1 : Z) (m2 : positive) (e2 : Z) :
  let '(q, e', l) := SFdiv_core_binary 53 1024 (Zpos m1) e1 (Zpos m2) e2 in
  0 <= q /\
  inbetween_loc q e' l ((IZR (Zpos m1) * bpow e1) / (IZR (Zpos m2) * bpow e2)) /\
  e' <= fexp64 (Zdigits2 q + e').
Proof.
  unfold SFdiv_core_binary.
  set (d1 := Zdigits2 (Zpos m1)). set (d2 := Zdigits2 (Zpos m2)).
  set (e' := Z.min (fexp 53 1024 (d1 + e1 - (d2 + e2))) (e1 - e2)).
  set (s := e1 - e2 - e').
  assert (Hs : 0 <= s) by (unfold s, e'; lia).
  set (m' := match s with Z.pos _ => Z.shiftl (Zpos m1) s | 0 => Zpos m1 | Z.neg _ => 0 end).
  assert (Hm' : m' = Zpos m1 * 2 ^ s).
  { unfold m'. destruct s as [| p | p] eqn:Hsp; [simpl; lia | | lia].
    rewrite Z.shiftl_mul_pow2 by lia. reflexivity. }
  pose proof (Z_div_mod m' (Zpos m2) ltac:(lia)) as Hdiv.
  destruct (Z.div_eucl m' (Zpos m2)) as [q r]. destruct Hdiv as [Hqr Hr].
  pose proof (Z.pow_pos_nonneg 2 s ltac:(lia) Hs) as H2s.
  assert (Hq : 0 <= q) by nia.
  split; [exact Hq | split].
  - apply new_location_spec; try lia.
    assert (HM : (0 < IZR (Zpos m2))%R) by (apply IZR_lt; lia).
    pose proof (bpow_pos e2) as Hb2. pose proof (bpow_pos e') as Hb'.
    assert (He1 : bpow e1 = (bpow e' * IZR (2 ^ s) * bpow e2)%R).
    { replace e1 with (e' + s + e2) at 1 by (unfold s; lia).
      rewrite !bpow_add, (bpow_nonneg_IZR s) by lia. reflexivity. }
    assert (Hm'R : (IZR (Zpos m1) * IZR (2 ^ s) = IZR (Zpos m2) * IZR q + IZR r)%R).
    { rewrite <- mult_IZR, <- Hm', Hqr, plus_IZR, mult_IZR. reflexivity. }
    rewrite He1.
    replace (IZR (Zpos m1) * (bpow e' * IZR (2 ^ s) * bpow e2))%R
      with ((IZR (Zpos m1) * IZR (2 ^ s)) * bpow e' * bpow e2)%R by ring.
    rewrite Hm'R. field. split; lra.
  - unfold fexp64. rewrite fexp64_eq.
    destruct (Z_le_gt_dec e' (-1074)) as [Hle | Hgt]; [lia |].
    assert (Ht : e' <= d1 + e1 - (d2 + e2) - 53).
    { pose proof (fexp64_eq (d1 + e1 - (d2 + e2))) as Hf. unfold e' in Hgt |- *. lia. }
    pose proof (Zdigits2_bounds (Zpos m1) ltac:(lia)) as [H1lo _]. fold d1 in H1lo.
    pose proof (Zdigits2_bounds (Zpos m2) ltac:(lia)) as [_ H2hi]. fold d2 in H2hi.
    pose proof (Zdigits2_pos (Zpos m1) ltac:(lia)) as Hd1. fold d1 in Hd1.
    pose proof (Zdigits2_pos (Zpos m2) ltac:(lia)) as Hd2. fold d2 in Hd2.
    assert (Hbig : 2 ^ 52 * 2 ^ d2 <= m').
    { rewrite Hm'.
      assert (HA : 2 ^ (52 + d2) <= 2 ^ (d1 - 1 + s))
        by (apply Z.pow_le_mono_r; unfold s; lia).
      rewrite !Z.pow_add_r in HA by lia.
      assert (HB : 2 ^ (d1 - 1) * 2 ^ s <= Zpos m1 * 2 ^ s)
        by (apply Z.mul_le_mono_nonneg_r; lia).
      lia. }
    assert (Hq52 : 2 ^ 52 <= q).
    { assert (HC : 2 ^ 52 * Zpos m2 < Zpos m2 * (q + 1)).
      { assert (2 ^ 52 * Zpos m2 < 2 ^ 52 * 2 ^ d2)
          by (apply Z.mul_lt_mono_pos_l; lia).
        lia. }
      rewrite (Z.mul_comm (2 ^ 52)) in HC.
      apply Z.mul_lt_mono_pos_l in HC; lia. }
    pose proof (Zdigits2_ge_of_le q 52 ltac:(lia) Hq52). lia.
Qed.

(** The quotient of a finite float by a positive one is a rounding of the
    quotient of their values. *)
Lemma SFdiv_spec (x : spec_float) (my : positive) (ey : Z) :
  is_finite x = true ->
  (Rabs (B2R x / (IZR (Zpos my) * bpow ey)) < bpow 1023)%R ->
  rounds_to (B2R x / (IZR (Zpos my) * bpow ey))
            (SFdiv 53 1024 x (S754_finite false my ey)).
Proof.
  intros Fx Hov.
  assert (HY : (0 < IZR (Zpos my) * bpow ey)%R).
  { pose proof (bpow_pos ey). assert (0 < IZR (Zpos my))%R by (apply IZR_lt; lia). nra. }
  destruct x as [sx | sx | | sx mx ex]; try discriminate.
  - replace (B2R (S754_zero sx) / (IZR (Zpos my) * bpow ey))%R with 0%R
      by (cbn [B2R]; unfold Rdiv; rewrite Rmult_0_l; reflexivity).
    simpl. apply (rounds_to_exact (S754_zero _)); reflexivity.
  - unfold SFdiv.
    pose proof (SFdiv_core_binary_spec mx ex my ey) as Hc.
    destruct (SFdiv_core_binary 53 1024 (Zpos mx) ex (Zpos my) ey) as [[q e'] l].
    destruct Hc as (Hq & Hin & Hex).
    set (xa := (IZR (Zpos mx) * bpow ex / (IZR (Zpos my) * bpow ey))%R) in *.
    assert (Hxa : (0 < xa)%R).
    { unfold xa. pose proof (bpow_pos ex).
      assert (0 < IZR (Zpos mx))%R by (apply IZR_lt; lia).
      apply Rdiv_lt_0_compat; nra. }
    assert (Heq : (B2R (S754_finite sx mx ex) / (IZR (Zpos my) * bpow ey)
                   = (if sx then -1 else 1) * xa)%R).
    { unfold xa. cbn [B2R]. unfold Rdiv. ring. }
    rewrite Heq in Hov |- *.
    assert (Hov' : (xa < bpow 1023)%R).
    { destruct sx.
      - replace (-1 * xa)%R with (- xa)%R in Hov by ring.
        rewrite Rabs_Ropp, Rabs_pos_eq in Hov by lra. exact Hov.
      - rewrite Rmult_1_l, Rabs_pos_eq in Hov by lra. exact Hov. }
    destruct (binary_round_aux_spec (xorb sx false) q e' l xa Hq Hin Hex Hov')
      as (v & HB & Hv & Hf & Hvalid & Hlo & Hhi).
    rewrite xorb_false_r in *.
    apply (rounds_to_signed sx xa v); auto.
Qed.

(** *** Integers, and the comparison with seven *)

Lemma format_int_scaled (m k : Z) :
  - 2 ^ 53 < m < 2 ^ 53 -> 0 <= k <= 1074 -> format (IZR m * bpow (- k)).
Proof.
  intros Hm Hk. destruct (Z_le_gt_dec 0 m).
  - left. exists m, (- k). repeat split; lia.
  - right. exists (- m), (- k). rewrite opp_IZR. repeat split; try lia. ring.
Qed.

Lemma format_int (m : Z) : - 2 ^ 53 < m < 2 ^ 53 -> format (IZR m).
Proof.
  intros Hm. replace (IZR m) with (IZR m * bpow (- 0))%R by (simpl; unfold bpow; simpl; ring).
  apply format_int_scaled; lia.
Qed.

Lemma bpow_neg_inv (k : Z) : 0 <= k -> (bpow (- k) * IZR (2 ^ k) = 1)%R.
Proof.
  intros Hk. rewrite <- (bpow_nonneg_IZR k Hk), <- bpow_add.
  replace (- k + k) with 0 by lia. reflexivity.
Qed.

Lemma of_Z_rounds (n : Z) :
  - 2 ^ 1000 < n < 2 ^ 1000 ->
  rounds_to (IZR n) (binary_normalize 53 1024 n 0 false).
Proof.
  intros Hn.
  replace (IZR n) with (IZR n * bpow 0)%R by (unfold bpow; simpl; ring).
  apply binary_normalize_spec.
  replace (IZR n * bpow 0)%R with (IZR n) by (unfold bpow; simpl; ring).
  rewrite <- abs_IZR.
  assert (Z.abs n < 2 ^ 1000) by lia.
  apply IZR_lt in H. rewrite <- bpow_nonneg_IZR in H by lia.
  pose proof (bpow_lt 1000 1023 ltac:(lia)). lra.
Qed.

(** The conversion of an integer of at most 53 bits is exact. *)
Lemma of_Z_exact (n : Z) :
  - 2 ^ 53 < n < 2 ^ 53 ->
  B2R (binary_normalize 53 1024 n 0 false) = IZR n /\
  is_finite (binary_normalize 53 1024 n 0 false) = true /\
  valid_binary 53 1024 (binary_normalize 53 1024 n 0 false) = true.
Proof.
  intros Hn.
  assert (Hr : rounds_to (IZR n) (binary_normalize 53 1024 n 0 false)).
  { apply of_Z_rounds.
    assert (2 ^ 53 < 2 ^ 1000) by (apply Z.pow_lt_mono_r; lia). lia. }
  split; [apply rounds_to_format; [apply format_int; exact Hn | exact Hr] |].
  destruct Hr as (Hf & Hv & _). split; assumption.
Qed.

Ltac bpow_fact k H :=
  let v := eval vm_compute in (2 ^ k) in
  let nk := eval vm_compute in (- k) in
  assert (H : (bpow nk * IZR v = 1)%R) by (apply (bpow_neg_inv k); lia).

(** On canonical floats, [7 < g] is decided as on the reals. *)
Lemma ltb_seven (g : spec_float) :
  is_finite g = true -> valid_binary 53 1024 g = true ->
  (SFltb seven g = true <-> (7 < B2R g)%R).
Proof.
  intros Fg Vg.
  destruct g as [s | s | | s m e]; try discriminate.
  - simpl. split; [discriminate | lra].
  - pose proof (bpow_pos e) as Hb.
    assert (Hm : (0 < IZR (Zpos m))%R) by (apply IZR_lt; lia).
    destruct s.
    + cbn. split; [discriminate | nra].
    + cbv [valid_binary bounded canonical_mantissa] in Vg.
      apply andb_true_iff in Vg. destruct Vg as [Hc _]. apply Z.eqb_eq in Hc.
      rewrite fexp64_eq in Hc.
      change (Zpos (digits2_pos m)) with (Zdigits2 (Zpos m)) in Hc.
      pose proof (Zdigits2_bounds (Zpos m) ltac:(lia)) as [Hlo Hhi].
      unfold SFltb, SFcompare, seven. cbn [B2R]. rewrite Rmult_1_l.
      bpow_fact 50 H50.
      destruct (Z.compare_spec (-50) e) as [He | He | He].
      * subst e.
        rewrite Pos.compare_cont_spec. cbn [Pos.switch_Eq].
        assert (Hc7 : (7 = IZR 7881299347898368 * bpow (-50))%R).
        { replace (IZR 7881299347898368) with (7 * 1125899906842624)%R by lra. lra. }
        destruct (Pos.compare_spec 7881299347898368 m) as [Hp | Hp | Hp].
        -- subst m. split; [discriminate | lra].
        -- split; [intros _ | reflexivity].
           apply Pos2Z.pos_lt_pos in Hp. apply IZR_lt in Hp. nra.
        -- split; [discriminate |]. 
           apply Pos2Z.pos_lt_pos in Hp. apply IZR_lt in Hp. nra.
      * split; [intros _ | reflexivity].
        assert (Hd : Zdigits2 (Zpos m) = 53) by lia.
        rewrite Hd in Hlo. apply IZR_le in Hlo.
        pose proof (bpow_le (-49) e ltac:(lia)) as Hbe.
        bpow_fact 49 H49.
        assert (0 < bpow (-49))%R by apply bpow_pos.
        change (2 ^ (53 - 1)) with 4503599627370496 in Hlo.
        nra.
      * split; [discriminate |].
        assert (Hd : Zdigits2 (Zpos m) <= 53) by lia.
        assert (Hm53 : Zpos m < 2 ^ 53).
        { assert (2 ^ Zdigits2 (Zpos m) <= 2 ^ 53) by (apply Z.pow_le_mono_r; lia). lia. }
        apply IZR_lt in Hm53.
        pose proof (bpow_le e (-51) ltac:(lia)) as Hbe.
        bpow_fact 51 H51.
        assert (0 < bpow (-51))%R by apply bpow_pos.
        change (2 ^ 53) with 9007199254740992 in Hm53.
        nra.
Qed.

(** *** The comparison [delta.Hours()/24 > 7] *)

Lemma quot_rem_hours (d : Z) :
  let h := Z.quot d 3600000000000 in
  let r := Z.rem d 3600000000000 in
  d = 3600000000000 * h + r /\
  (0 <= d -> 0 <= h /\ 0 <= r < 3600000000000) /\
  (d <= 0 -> h <= 0 /\ - 3600000000000 < r <= 0).
Proof.
  intros h r. subst h r.
  pose proof (Z.quot_rem' d 3600000000000) as H.
  split; [exact H | split; intros Hd].
  - pose proof (Z.rem_bound_pos d 3600000000000 Hd ltac:(lia)).
    pose proof (Z.quot_pos d 3600000000000 Hd ltac:(lia)). lia.
  - pose proof (Z.rem_nonpos d 3600000000000 ltac:(lia) Hd).
    pose proof (Z.rem_bound_abs d 3600000000000 ltac:(lia)).
    assert (Z.quot d 3600000000000 <= 0).
    { rewrite <- (Z.opp_involutive d), Z.quot_opp_l by lia.
      pose proof (Z.quot_pos (- d) 3600000000000 ltac:(lia) ltac:(lia)). lia. }
    lia.
Qed.

Lemma Rdiv_ge_of (a x y : R) : (0 < y)%R -> (a * y <= x)%R -> (a <= x / y)%R.
Proof.
  intros Hy H. apply Rmult_le_reg_r with y; [exact Hy |].
  unfold Rdiv. rewrite Rmult_assoc, Rinv_l by lra. lra.
Qed.

Lemma Rdiv_le_of (a x y : R) : (0 < y)%R -> (x <= a * y)%R -> (x / y <= a)%R.
Proof.
  intros Hy H. apply Rmult_le_reg_r with y; [exact Hy |].
  unfold Rdiv. rewrite Rmult_assoc, Rinv_l by lra. lra.
Qed.

Lemma Rabs_lt_of (x b : R) : (- b < x < b)%R -> (Rabs x < b)%R.
Proof. intros [H1 H2]. apply Rabs_def1; assumption. Qed.

(** For every [int64] count of nanoseconds [d], the floating-point test
    [d.Hours()/24 > 7] holds exactly when [d] exceeds seven days: with
    [d = 3.6e12 h + r], a quotient [r/3.6e12] under one hour stays at least
    [2^-42] away from the next hour, and these margins survive the sum with
    [h] and the division by 24. *)
Lemma hours_check (d : Z) :
  Int64.min_int <= d <= Int64.max_int ->
  (Float64.ltb (Float64.of_Z 7) (Float64.div (Hours d) (Float64.of_Z 24)) = true
   <-> sevenDays < d).
Proof.
  intros Hd. unfold Int64.min_int, Int64.max_int in Hd.
  destruct (Z.eq_dec d sevenDays) as [-> | Hne].
  { split; [vm_compute; discriminate | unfold sevenDays; lia]. }
  unfold Hours. change Hour with 3600000000000.
  change (60 * 60 * 1000000000) with 3600000000000.
  destruct (quot_rem_hours d) as (Hqr & Hpos & Hneg).
  set (h := Z.quot d 3600000000000) in *. set (r := Z.rem d 3600000000000) in *.
  assert (Hh : - 2 ^ 22 < h < 2 ^ 22) by lia.
  assert (Hr : - 3600000000000 < r < 3600000000000) by lia.
  unfold Float64.ltb, Float64.div, Float64.add, Float64.of_Z,
         Float64.prec, Float64.emax.
  change (binary_normalize 53 1024 7 0 false) with seven.
  change (binary_normalize 53 1024 24 0 false)
    with (S754_finite false 6755399441055744 (-48)).
  change (binary_normalize 53 1024 3600000000000 0 false)
    with (S754_finite false 7372800000000000 (-11)).
  destruct (of_Z_exact h ltac:(lia)) as (Ha & Fa & Va).
  destruct (of_Z_exact r ltac:(lia)) as (Hb & Fb & Vb).
  set (a := binary_normalize 53 1024 h 0 false) in *.
  set (b := binary_normalize 53 1024 r 0 false) in *.
  assert (HhR : (- 4194304 < IZR h < 4194304)%R).
  { destruct Hh as [Hh0 Hh1]. apply IZR_lt in Hh0. apply IZR_lt in Hh1.
    change (- 2 ^ 22) with (-4194304) in Hh0. change (2 ^ 22) with 4194304 in Hh1. lra. }
  assert (HrR : (- 3600000000000 < IZR r < 3600000000000)%R).
  { destruct Hr as [Hr0 Hr1]. apply IZR_lt in Hr0. apply IZR_lt in Hr1. lra. }
  (* the constants *)
  bpow_fact 11 H11. bpow_fact 48 H48. bpow_fact 42 H42. bpow_fact 47 H47.
  assert (Hb42 : (0 < bpow (-42))%R) by apply bpow_pos.
  assert (Hb47 : (0 < bpow (-47))%R) by apply bpow_pos.
  assert (HcH : (IZR (Zpos 7372800000000000) * bpow (-11) = 3600000000000)%R) by nra.
  assert (Hc24 : (IZR (Zpos 6755399441055744) * bpow (-48) = 24)%R) by nra.
  pose proof (bpow_lt 23 1023 ltac:(lia)) as H1023.
  rewrite (bpow_nonneg_IZR 23) in H1023 by lia. change (2 ^ 23) with 8388608 in H1023.
  (* the fraction of an hour *)
  assert (Hq : rounds_to (IZR r / 3600000000000)
                 (SFdiv 53 1024 b (S754_finite false 7372800000000000 (-11)))).
  { rewrite <- Hb, <- HcH. apply SFdiv_spec; [exact Fb |].
    rewrite Hb, HcH. apply Rabs_lt_of. split.
    - apply Rlt_le_trans with (-1)%R; [lra | apply Rdiv_ge_of; lra].
    - apply Rle_lt_trans with 1%R; [apply Rdiv_le_of; lra | lra]. }
  set (q := SFdiv 53 1024 b (S754_finite false 7372800000000000 (-11))) in *.
  destruct Hq as (Fq & Vq & Hqlo & Hqhi).
  assert (Hq1 : (-1 <= B2R q <= 1)%R).
  { split; [apply Hqlo | apply Hqhi].
    - apply (format_int (-1)); lia.
    - apply Rdiv_ge_of; lra.
    - apply (format_int 1); lia.
    - apply Rdiv_le_of; lra. }
  (* the sum *)
  assert (Hf : rounds_to (IZR h + B2R q) (SFadd 53 1024 a q)).
  { rewrite <- Ha. apply SFadd_spec; auto. rewrite Ha.
    apply Rabs_lt_of. lra. }
  set (f := SFadd 53 1024 a q) in *.
  destruct Hf as (Ff & Vf & Hflo & Hfhi).
  assert (Hf1 : (- 8388608 <= B2R f <= 8388608)%R).
  { split; [apply Hflo | apply Hfhi]; try lra.
    - apply (format_int (-8388608)); lia.
    - apply (format_int 8388608); lia. }
  (* the number of days *)
  assert (Hg : rounds_to (B2R f / 24)
                 (SFdiv 53 1024 f (S754_finite false 6755399441055744 (-48)))).
  { rewrite <- Hc24. apply SFdiv_spec; [exact Ff |]. rewrite Hc24.
    apply Rabs_lt_of. split.
    - apply Rlt_le_trans with (-8388608)%R; [lra | apply Rdiv_ge_of; lra].
    - apply Rle_lt_trans with 8388608%R; [apply Rdiv_le_of; lra | lra]. }
  set (g := SFdiv 53 1024 f (S754_finite false 6755399441055744 (-48))) in *.
  destruct Hg as (Fg & Vg & Hglo & Hghi).
  rewrite (ltb_seven g Fg Vg).
  assert (Hd7 : sevenDays = 3600000000000 * 168) by reflexivity.
  split.
  - (* not more than seven days: the quotient stays at or below seven *)
    intros H7. destruct (Z_lt_ge_dec sevenDays d) as [| Hle]; [assumption | exfalso].
    assert (Hh167 : h <= 167) by lia.
    apply IZR_le in Hh167.
    assert (Hqu : (B2R q <= IZR 4398046511103 * bpow (- 42))%R).
    { apply Hqhi; [apply (format_int_scaled 4398046511103 42); lia |].
      assert (Hr1 : r <= 3599999999999) by lia. apply IZR_le in Hr1.
      apply Rdiv_le_of; [lra | nra]. }
    assert (Hfu : (B2R f <= IZR 738871813865471 * bpow (- 42))%R).
    { apply Hfhi; [apply (format_int_scaled 738871813865471 42); lia |]. nra. }
    assert (Hgu : (B2R g <= IZR 985162418487295 * bpow (- 47))%R).
    { apply Hghi; [apply (format_int_scaled 985162418487295 47); lia |].
      apply Rdiv_le_of; [lra | nra]. }
    nra.
  - intros Hgt.
    assert (Hh168 : 168 <= h) by lia.
    assert (Hr0 : 0 <= r) by lia.
    apply IZR_le in Hr0.
    assert (Hql : (0 <= B2R q)%R).
    { apply Hqlo; [apply (format_int 0); lia |].
      apply Rdiv_ge_of; lra. }
    assert (Hql' : 1 <= r -> (IZR 1 * bpow (-42) <= B2R q)%R).
    { intros Hr1. apply Hqlo; [apply (format_int_scaled 1 42); lia |]. apply IZR_le in Hr1.
      apply Rdiv_ge_of; [lra | nra]. }
    change (- 42) with (-42) in Hql'.
    assert (Hfl : (IZR 738871813865473 * bpow (-42) <= B2R f)%R).
    { apply Hflo; [apply (format_int_scaled 738871813865473 42); lia |].
      destruct (Z_le_gt_dec 169 h) as [H169 | H168].
      - apply IZR_le in H169. nra.
      - assert (Hh8 : h = 168) by lia. assert (Hr1 : 1 <= r) by lia.
        specialize (Hql' Hr1). rewrite Hh8. nra. }
    assert (Hgl : (IZR 985162418487297 * bpow (-47) <= B2R g)%R).
    { apply Hglo; [apply (format_int_scaled 985162418487297 47); lia |].
      apply Rdiv_ge_of; [lra | nra]. }
    nra.
Qed.

(** ** The stale-post check *)

Lemma Sub_in_range (t u : Time) :
  Int64.min_int <= Sub t u <= Int64.max_int.
Proof.
  unfold Sub, minDuration, maxDuration.
  destruct (Z.ltb_spec (unix_nano t - unix_nano u) Int64.min_int);
    [unfold Int64.min_int, Int64.max_int; lia |].
  destruct (Z.ltb_spec Int64.max_int (unix_nano t - unix_nano u));
    [unfold Int64.min_int, Int64.max_int; lia | lia].
Qed.

Lemma Sub_sevenDays (t u : Time) :
  sevenDays < Sub t u <-> sevenDays < unix_nano t - unix_nano u.
Proof.
  unfold Sub, minDuration, maxDuration, sevenDays.
  destruct (Z.ltb_spec (unix_nano t - unix_nano u) Int64.min_int) as [H | H];
    [unfold Int64.min_int in *; lia |].
  destruct (Z.ltb_spec Int64.max_int (unix_nano t - unix_nano u)) as [H' | H'];
    unfold Int64.min_int, Int64.max_int in *; lia.
Qed.

(** The stale-post comparison of the code is the comparison of the exact
    difference of the two timestamps, in nanoseconds, with seven days. *)
Lemma moreThan7Days_iff (now createdAt : Time) :
  moreThan7Days now createdAt = true <->
  sevenDays < unix_nano now - unix_nano createdAt.
Proof.
  unfold moreThan7Days.
  rewrite (hours_check (Sub now createdAt) (Sub_in_range now createdAt)).
  apply Sub_sevenDays.
Qed.

(** ** The rolling key *)

(** The rolling key of a post of 2014-05-13 in the public channel, as the
    code computes it. *)
Lemma GetSevenDayKey_aPost :
  result_of (run FakeEnv (GetSevenDayKey "dev" publicChannel aPost) fakeWorld) =
  "%!d(string=dev:koding:popularpost:public:1399939200)-1399334400".
Proof. reflexivity. Qed.

(** C1 (the code departs from the claim): [GetSevenDayKey] formats the daily
    key, a string, with the verb [%d].  For every channel and message the key
    it returns is the daily key wrapped as [%!d(string=...)], followed by a
    hyphen and the Unix seconds of the day start seven days earlier; it is
    never the plain compound ["{dailyKey}-{seconds}"] the claim describes. *)
Theorem C1_GetSevenDayKey_wraps_daily_key
    (env : string) (c : Channel) (cm : ChannelMessage) (E : Env) (s : St E) :
  let daily := result_of (run E (GetDailyKey env c (ChannelMessage_CreatedAt cm)) s) in
  let seven := Unix (getXDaysAgo (getStartOfDay (ChannelMessage_CreatedAt cm)) 7) in
  result_of (run E (GetSevenDayKey env c cm) s)
    = "%!d(string=" ++ daily ++ ")-" ++ Fmt.FormatInt seven
  /\ result_of (run E (GetSevenDayKey env c cm) s)
    <> daily ++ "-" ++ Fmt.FormatInt seven.
Proof.
  intros daily seven.
  assert (Heq : result_of (run E (GetSevenDayKey env c cm) s)
                = "%!d(string=" ++ daily ++ ")-" ++ Fmt.FormatInt seven).
  { unfold GetSevenDayKey. rewrite run_bind.
    subst daily seven.
    destruct (run E (GetDailyKey env c (ChannelMessage_CreatedAt cm)) s) as [[k tr] s1].
    cbn. rewrite append_empty_r, append_assoc. reflexivity. }
  split; [exact Heq |].
  rewrite Heq. intros H.
  apply (f_equal String.length) in H.
  cbn in H. rewrite !length_append in H. cbn in H. lia.
Qed.

(** ** The daily key *)

(** C2 does not hold for every timestamp: two timestamps of the same UTC
    calendar day that carry a location three hours east of UTC fall on
    different days of their own wall clock and get different daily keys. *)
Lemma C2_counterexample_local_midnight :
  ~ (forall (env : string) (c : Channel) (t1 t2 : Time),
        wf_time t1 -> wf_time t2 -> IsZero t1 = false -> IsZero t2 = false ->
        (utc_day t1 = utc_day t2 -> GetDailyKey env c t1 = GetDailyKey env c t2) /\
        (Z.abs (utc_day t1 - utc_day t2) = 1 ->
         GetDailyKey env c t1 <> GetDailyKey env c t2)).
Proof.
  intros H.
  pose (t1 := {| unix_sec := 1400000000; nsec := 0; loc := FixedZone 10800 |}).
  pose (t2 := {| unix_sec := 1400020000; nsec := 0; loc := FixedZone 10800 |}).
  destruct (H "dev" publicChannel t1 t2) as [Hsame _];
    try (unfold wf_time; simpl; lia); try reflexivity.
  specialize (Hsame eq_refl).
  vm_compute in Hsame. discriminate Hsame.
Qed.

(** C2 (amended): for timestamps that carry the UTC location, [GetDailyKey]
    is a pure function of the environment, the group, the channel name and the
    UTC day start of the timestamp: it makes no call, two non-zero timestamps
    of the same UTC calendar day get the same key, and timestamps of adjacent
    UTC days get different keys. *)
Theorem C2_GetDailyKey_utc_day (env : string) (c : Channel) (t1 t2 : Time) :
  wf_time t1 -> wf_time t2 ->
  loc t1 = UTCLoc -> loc t2 = UTCLoc ->
  IsZero t1 = false -> IsZero t2 = false ->
  GetDailyKey env c t1 =
    Ret (PreparePopularPostKey env (Channel_GroupName c) (Channel_Name c)
                               (86400 * utc_day t1)) /\
  (utc_day t1 = utc_day t2 -> GetDailyKey env c t1 = GetDailyKey env c t2) /\
  (Z.abs (utc_day t1 - utc_day t2) = 1 ->
   GetDailyKey env c t1 <> GetDailyKey env c t2).
Proof.
  intros W1 W2 L1 L2 Z1 Z2.
  rewrite (GetDailyKey_nonzero env c t1 Z1), (GetDailyKey_nonzero env c t2 Z2).
  unfold dailyKey.
  rewrite (getStartOfDay_utc t1 W1 L1), (getStartOfDay_utc t2 W2 L2).
  split; [reflexivity | split].
  - intros ->. reflexivity.
  - intros Hadj Heq. apply Ret_inj in Heq.
    apply PreparePopularPostKey_inj in Heq. lia.
Qed.

Lemma C2_GetDailyKey_utc_day_witness :
  GetDailyKey "dev" publicChannel (utc 1400000000) =
    Ret (PreparePopularPostKey "dev" "koding" "public" (86400 * 16203)) /\
  (utc_day (utc 1400000000) = utc_day (utc 1400003600) ->
   GetDailyKey "dev" publicChannel (utc 1400000000) =
   GetDailyKey "dev" publicChannel (utc 1400003600)) /\
  (Z.abs (utc_day (utc 1400000000) - utc_day (utc 1400003600)) = 1 ->
   GetDailyKey "dev" publicChannel (utc 1400000000) <>
   GetDailyKey "dev" publicChannel (utc 1400003600)).
Proof.
  apply (C2_GetDailyKey_utc_day "dev" publicChannel (utc 1400000000) (utc 1400003600));
    try reflexivity; unfold wf_time; simpl; lia.
Defined.

(** ** The delivery boundary *)

(** C3: on a failing handler call, a redelivered message is acknowledged
    (without the multiple flag) and reported handled; a first delivery is
    negatively acknowledged with requeue requested and reported unhandled.
    With the broker handing a requeued message out again as a redelivery, a
    message whose handler always fails is delivered exactly twice: one
    retry. *)
Theorem C3_DefaultErrHandler_policy
    (E : Env) (s : St E) (d : Delivery) (err : error) (tag : Z) (fuel : nat) :
  delivery_calls (trace_of (run E (DefaultErrHandler d err) s))
    = [if Redelivered d then DAck d false else DNack d false true]
  /\ result_of (run E (DefaultErrHandler d err) s) = Redelivered d
  /\ failingDeliveries E (S (S fuel)) s {| DeliveryTag := tag; Redelivered := false |} err
     = [{| DeliveryTag := tag; Redelivered := false |};
        {| DeliveryTag := tag + 1; Redelivered := true |}].
Proof.
  assert (Hone : forall (d' : Delivery) (s' : St E),
             delivery_calls (trace_of (run E (DefaultErrHandler d' err) s'))
             = [if Redelivered d' then DAck d' false else DNack d' false true]
             /\ result_of (run E (DefaultErrHandler d' err) s') = Redelivered d').
  { intros d' s'. unfold DefaultErrHandler.
    destruct (Redelivered d'); simpl;
      repeat match goal with
             | |- context [answer E ?R ?e ?st] => destruct (answer E R e st)
             end; split; reflexivity. }
  split; [apply Hone | split; [apply Hone |]].
  simpl.
  repeat (match goal with
          | |- context [answer E ?R ?e ?st] => destruct (answer E R e st)
          end; simpl).
  reflexivity.
Qed.

(** ** Eligibility *)

(** C6: the eligibility filter answers "ineligible" exactly when the channel
    carries the troll marker, or the channel is not public, or the message
    carries the troll marker, or the message is not a post. *)
Theorem C6_notEligible_iff (c : Channel) (cm : ChannelMessage) :
  notEligibleForPopularPost c cm = true <->
  (Is (Channel_MetaBits c) Troll = true \/
   Channel_PrivacyConstant c <> Channel_PRIVACY_PUBLIC \/
   Is (ChannelMessage_MetaBits cm) Troll = true \/
   ChannelMessage_TypeConstant cm <> ChannelMessage_TYPE_POST).
Proof.
  unfold notEligibleForPopularPost.
  destruct (Is (Channel_MetaBits c) Troll); [intuition |].
  destruct (String.eqb_spec (Channel_PrivacyConstant c) Channel_PRIVACY_PUBLIC) as [Hp | Hp];
    simpl; [| intuition].
  destruct (Is (ChannelMessage_MetaBits cm) Troll); [intuition |].
  destruct (String.eqb_spec (ChannelMessage_TypeConstant cm) ChannelMessage_TYPE_POST)
    as [Ht | Ht]; simpl; [| intuition].
  split; [discriminate |].
  intros [H | [H | [H | H]]]; try discriminate; contradiction.
Qed.

(** ** The Score Store commands of the key helpers and the buckets *)

Ltac answer_cases E :=
  repeat match goal with
         | |- context [answer E ?R ?e ?st] =>
             let r := fresh "r" in
             let s := fresh "s" in
             destruct (answer E R e st) as [r s]; simpl
         end.

Lemma GetDailyKey_quiet (env : string) (E : Env) (c : Channel) (date : Time) (s : St E) :
  store_calls (trace_of (run E (GetDailyKey env c date) s)) = [].
Proof.
  unfold GetDailyKey. destruct (IsZero date); simpl; answer_cases E; reflexivity.
Qed.

Lemma GetSevenDayKey_quiet (env : string) (E : Env) (c : Channel) (cm : ChannelMessage)
    (s : St E) :
  store_calls (trace_of (run E (GetSevenDayKey env c cm) s)) = [].
Proof.
  unfold GetSevenDayKey. rewrite run_bind.
  pose proof (GetDailyKey_quiet env E c (ChannelMessage_CreatedAt cm) s) as H.
  destruct (run E (GetDailyKey env c (ChannelMessage_CreatedAt cm)) s) as [[k tr] s1].
  simpl. unfold trace_of in *; simpl in *. rewrite app_nil_r. exact H.
Qed.

Lemma combinedBucketLoop_run (env : string) (E : Env) (c : Channel) (from : Time)
    (days : list Z) :
  forall (keys : list string) (weights : list Float64.float64) (s : St E),
  exists ks : list string,
    result_of (run E (combinedBucketLoop env c from days keys weights) s)
      = ((keys ++ ks)%list, (weights ++ map weightOf days)%list)
    /\ store_calls (trace_of (run E (combinedBucketLoop env c from days keys weights) s)) = []
    /\ Forall2 (key_of_offset env E c from) days ks.
Proof.
  induction days as [| i days IH]; intros keys weights s.
  - exists []. simpl. rewrite !app_nil_r. repeat split. constructor.
  - cbn [combinedBucketLoop]. rewrite run_bind.
    pose proof (GetDailyKey_quiet env E c (getXDaysAgo from i) s) as Hq.
    assert (Hk : key_of_offset env E c from i
                   (result_of (run E (GetDailyKey env c (getXDaysAgo from i)) s)))
      by (exists s; reflexivity).
    destruct (run E (GetDailyKey env c (getXDaysAgo from i)) s) as [[k tr] s1].
    unfold trace_of, result_of in Hq, Hk; simpl in Hq, Hk.
    destruct (IH (keys ++ [k])%list
                 (weights ++ [Float64.div Float64.one
                                (if Float64.eqb (Float64.of_Z i) Float64.zero
                                 then Float64.one else Float64.of_Z i)])%list s1)
      as (ks & Hr & Hs & Hf).
    destruct (run E (combinedBucketLoop env c from days _ _) s1) as [[kw tr'] s2].
    unfold trace_of, result_of in Hr, Hs |- *; simpl in Hr, Hs |- *.
    exists (k :: ks). rewrite store_calls_app, Hq, Hs, Hr.
    rewrite <- !app_assoc. simpl. repeat split.
    constructor; assumption.
Qed.

Lemma createSevenDayCombinedBucket_run (env : string) (E : Env) (c : Channel)
    (cm : ChannelMessage) (key : string) (from : Time) (s : St E) :
  exists (ks : list string) (err : option error),
    store_calls (trace_of (run E (createSevenDayCombinedBucket env c cm key from) s))
      = [SUnion key ks (map weightOf [0; 1; 2; 3; 4; 5; 6; 7]) "SUM" err]
    /\ result_of (run E (createSevenDayCombinedBucket env c cm key from) s) = err
    /\ Forall2 (key_of_offset env E c (getStartOfDay from)) [0; 1; 2; 3; 4; 5; 6; 7] ks.
Proof.
  unfold createSevenDayCombinedBucket. rewrite run_bind.
  destruct (combinedBucketLoop_run env E c (getStartOfDay from)
              [0; 1; 2; 3; 4; 5; 6; 7] [] [] s) as (ks & Hr & Hs & Hf).
  destruct (run E (combinedBucketLoop env c (getStartOfDay from) _ [] []) s)
    as [[kw tr] s1].
  unfold trace_of, result_of in Hr, Hs |- *; simpl in Hr, Hs. subst kw.
  cbn [fst snd bind trigger run].
  match goal with
  | |- context [answer E ?R ?e ?st] => destruct (answer E R e st) as [err s2]
  end.
  exists ks, err. cbn [fst snd]. rewrite store_calls_app, Hs.
  repeat split. exact Hf.
Qed.

Lemma keys_of_nonzero_days (env : string) (E : Env) (c : Channel) (from : Time)
    (days : list Z) (ks : list string) :
  Forall2 (key_of_offset env E c from) days ks ->
  (forall i, In i days -> IsZero (getXDaysAgo from i) = false) ->
  ks = map (fun i => dailyKey env c (getXDaysAgo from i)) days.
Proof.
  induction 1 as [| i k days ks [si Hk] _ IH]; intros Hnz; [reflexivity |].
  simpl. f_equal.
  - rewrite Hk, GetDailyKey_nonzero by (apply Hnz; left; reflexivity). reflexivity.
  - apply IH. intros j Hj. apply Hnz. right. exact Hj.
Qed.


Lemma saveToSevenDayBucket_run
    (env : string) (E : Env) (c : Channel) (cm : ChannelMessage) (i : Interaction)
    (incrementCount : Z) (s : St E) :
  rolling_outcome
    (result_of (run E (GetSevenDayKey env c cm) s))
    incrementCount (ChannelMessage_Id cm)
    (store_calls (trace_of (run E (saveToSevenDayBucket env c cm i incrementCount) s)))
    (result_of (run E (saveToSevenDayBucket env c cm i incrementCount) s)).
Proof.
  unfold saveToSevenDayBucket. rewrite run_bind.
  pose proof (GetSevenDayKey_quiet env E c cm s) as Hq.
  destruct (run E (GetSevenDayKey env c cm) s) as [[key tr] s1].
  unfold trace_of, result_of in Hq |- *; cbn [fst snd] in Hq |- *.
  cbn [bind trigger run].
  destruct (answer E _ (RedisExists key) s1) as [found s2].
  destruct found; cbn [negb].
  - cbn [bind trigger run].
    destruct (answer E _ (RedisSortedSetIncrBy key incrementCount (ChannelMessage_Id cm)) s2)
      as [r s3].
    cbn [fst snd]. rewrite store_calls_app, Hq. simpl. constructor.
  - rewrite run_bind.
    destruct (createSevenDayCombinedBucket_run env E c cm key
                (getStartOfDay (ChannelMessage_CreatedAt cm)) s2)
      as (ks & err & Hs & Hr & _).
    destruct (run E (createSevenDayCombinedBucket env c cm key _) s2) as [[err' tr'] s3].
    unfold trace_of, result_of in Hs, Hr; cbn [fst snd] in Hs, Hr. subst err'.
    destruct err as [e |].
    + cbn [run fst snd]. rewrite store_calls_app, Hq. cbn [app store_calls store_call].
      rewrite store_calls_app, Hs. simpl. constructor.
    + cbn [bind trigger run].
      destruct (answer E _ (RedisSortedSetIncrBy key incrementCount (ChannelMessage_Id cm)) s3)
        as [r s4].
      cbn [fst snd]. rewrite store_calls_app, Hq. cbn [app store_calls store_call].
      rewrite store_calls_app, Hs. simpl. constructor.
Qed.

(** C5: the rolling-window step begins its Score Store traffic with the
    existence check of the rolling key; the union is issued only when the
    answer is "absent"; and whether the key was there or has just been
    created, the increment of the message's score by the signed delta on the
    rolling key follows and its outcome is returned. *)
Theorem C5_saveToSevenDayBucket_steps
    (env : string) (E : Env) (c : Channel) (cm : ChannelMessage) (i : Interaction)
    (incrementCount : Z) (s : St E) :
  rolling_outcome
    (result_of (run E (GetSevenDayKey env c cm) s))
    incrementCount (ChannelMessage_Id cm)
    (store_calls (trace_of (run E (saveToSevenDayBucket env c cm i incrementCount) s)))
    (result_of (run E (saveToSevenDayBucket env c cm i incrementCount) s)).
Proof. apply saveToSevenDayBucket_run. Qed.

(** ** The handler *)

Lemma run_trigger_bind {R A : Type} (E : Env) (e : Event R) (f : R -> Prog A) (s : St E) :
  run E (bind (trigger e) f) s =
  let (r, s1) := answer E R e s in
  let '(a, tr, s2) := run E (f r) s1 in
  (a, MkCall e r :: tr, s2).
Proof. reflexivity. Qed.

Lemma saveToDailyBucket_run (env : string) (E : Env) (c : Channel) (cm : ChannelMessage)
    (i : Interaction) (n : Z) (s : St E) :
  store_calls (trace_of (run E (saveToDailyBucket env c cm i n) s))
    = [SIncrBy (result_of (run E (GetDailyKey env c (ChannelMessage_CreatedAt cm)) s))
               n (ChannelMessage_Id cm)
               (result_of (run E (saveToDailyBucket env c cm i n) s))].
Proof.
  unfold saveToDailyBucket. rewrite run_bind.
  pose proof (GetDailyKey_quiet env E c (ChannelMessage_CreatedAt cm) s) as Hq.
  destruct (run E (GetDailyKey env c (ChannelMessage_CreatedAt cm)) s) as [[k tr] s1].
  unfold trace_of, result_of in Hq |- *; cbn [fst snd] in Hq |- *.
  cbn [bind trigger run].
  destruct (answer E _ (RedisSortedSetIncrBy k n (ChannelMessage_Id cm)) s1) as [r s2].
  cbn [fst snd]. rewrite store_calls_app, Hq. reflexivity.
Qed.

(** What the handler does to the Score Store once both lookups have
    succeeded, the message is eligible and the post is fresh. *)
Lemma updates_run (env : string) (E : Env) (c : Channel) (cm : ChannelMessage)
    (i : Interaction) (n : Z) (s : St E) :
  let p := err <- saveToDailyBucket env c cm i n ;;
           match err with
           | Some e => Ret (Some e)
           | None =>
               err <- saveToSevenDayBucket env c cm i n ;;
               match err with
               | Some e => Ret (Some e)
               | None => Ret None
               end
           end in
  handled_updates env E n c cm i false s
    (store_calls (trace_of (run E p s))) (result_of (run E p s)).
Proof.
  intros p. subst p. unfold handled_updates. rewrite run_bind.
  pose proof (saveToDailyBucket_run env E c cm i n s) as Hd.
  destruct (run E (saveToDailyBucket env c cm i n) s) as [[err tr] s1].
  unfold trace_of, result_of in Hd; cbn [fst snd] in Hd. cbn [snd].
  destruct err as [e |].
  - left. exists e. unfold trace_of, result_of; cbn [run fst snd].
    rewrite app_nil_r. split; [exact Hd | reflexivity].
  - right. rewrite run_bind.
    pose proof (saveToSevenDayBucket_run env E c cm i n s1) as Hr.
    destruct (run E (saveToSevenDayBucket env c cm i n) s1) as [[err tr'] s2].
    unfold trace_of, result_of in Hr |- *; cbn [fst snd] in Hr |- *.
    exists (store_calls tr').
    destruct err as [e |]; cbn [run fst snd];
      rewrite app_nil_r, store_calls_app, Hd; (split; [reflexivity | exact Hr]).
Qed.

Lemma handleInteraction_updates (env : string) (ts : Time -> string) (E : Env)
    (n : Z) (i : Interaction) (s s1 s2 : St E) (cm : ChannelMessage) (c : Channel) :
  answer E _ (ChannelMessageById (Interaction_MessageId i)) s = (Ok cm, s1) ->
  answer E _ (ChannelById (ChannelMessage_InitialChannelId cm)) s1 = (Ok c, s2) ->
  handled_updates env E n c cm i
    (notEligibleForPopularPost c cm
     || moreThan7Days (fst (answer E _ TimeNow s2)) (ChannelMessage_CreatedAt cm))
    (snd (answer E _ TimeNow s2))
    (store_calls (trace_of (run E (handleInteraction env ts n i) s)))
    (result_of (run E (handleInteraction env ts n i) s)).
Proof.
  intros H1 H2. unfold handleInteraction.
  rewrite run_trigger_bind, H1, run_trigger_bind, H2.
  destruct (notEligibleForPopularPost c cm).
  { cbn [orb]. unfold handled_updates. cbn [bind trigger run]. answer_cases E.
    split; reflexivity. }
  cbn [orb]. unfold createdMoreThan7DaysAgo. cbn [bind trigger run].
  destruct (answer E _ TimeNow s2) as [now s3]. cbn [fst snd].
  destruct (moreThan7Days now (ChannelMessage_CreatedAt cm)).
  { unfold handled_updates. cbn [bind trigger run]. answer_cases E.
    split; reflexivity. }
  pose proof (updates_run env E c cm i n s3) as Hu. cbv zeta in Hu.
  destruct (run E _ s3) as [[err tr] s4].
  unfold trace_of, result_of in Hu |- *; cbn [fst snd] in Hu |- *.
  cbn [store_calls store_call]. exact Hu.
Qed.

(** A run that was not skipped and succeeds has incremented both buckets,
    the daily one first and the rolling one last, both with success. *)
Lemma handled_updates_success (env : string) (E : Env) (n : Z) (c : Channel)
    (cm : ChannelMessage) (i : Interaction) (sd : St E) (calls : list StoreCall) :
  handled_updates env E n c cm i false sd calls None ->
  exists (middle : list StoreCall),
    calls = (SIncrBy (result_of (run E (GetDailyKey env c (ChannelMessage_CreatedAt cm)) sd))
                     n (ChannelMessage_Id cm) None
             :: middle
             ++ [SIncrBy (result_of (run E (GetSevenDayKey env c cm)
                                        (snd (run E (saveToDailyBucket env c cm i n) sd))))
                         n (ChannelMessage_Id cm) None])%list.
Proof.
  unfold handled_updates. intros [(e & _ & He) | (rolling & Hc & Hr)]; [discriminate |].
  inversion Hr; subst.
  - eexists [SExists _ true]. reflexivity.
  - eexists [SExists _ false; SUnion _ _ _ "SUM" None]. reflexivity.
Qed.

(** C9: a failed message lookup is returned at once and is the only call of
    the run; a failed channel lookup is returned right after the message
    lookup, with no further call: no eligibility check, no Score Store
    command.  When both lookups succeed and the interaction is skipped (the
    message is ineligible, or stale at the reading of the clock), the Score
    Store sees nothing and the run succeeds.  In every other run the daily
    increment is the first command; if it fails it is the only command and its
    error is returned; if it succeeds the commands of the rolling-window step
    follow, on the rolling key, and the outcome of that step is returned, so
    that a rolling failure is returned and the run succeeds only after both
    increments have succeeded, the daily one first and the rolling one
    last. *)
Theorem C9_handleInteraction_sequence
    (env : string) (ts : Time -> string) (E : Env) (n : Z) (i : Interaction) (s : St E) :
  let mid := Interaction_MessageId i in
  let x := run E (handleInteraction env ts n i) s in
  (forall (e : error) (s1 : St E),
      answer E _ (ChannelMessageById mid) s = (Err e, s1) ->
      x = (Some e, [MkCall (ChannelMessageById mid) (Err e)], s1))
  /\ (forall (cm : ChannelMessage) (s1 : St E) (e : error) (s2 : St E),
      answer E _ (ChannelMessageById mid) s = (Ok cm, s1) ->
      answer E _ (ChannelById (ChannelMessage_InitialChannelId cm)) s1 = (Err e, s2) ->
      x = (Some e,
           [MkCall (ChannelMessageById mid) (Ok cm);
            MkCall (ChannelById (ChannelMessage_InitialChannelId cm)) (Err e)], s2))
  /\ (forall (cm : ChannelMessage) (s1 : St E) (c : Channel) (s2 : St E),
      answer E _ (ChannelMessageById mid) s = (Ok cm, s1) ->
      answer E _ (ChannelById (ChannelMessage_InitialChannelId cm)) s1 = (Ok c, s2) ->
      let now := fst (answer E _ TimeNow s2) in
      let sd := snd (answer E _ TimeNow s2) in
      let skipped := notEligibleForPopularPost c cm
                     || moreThan7Days now (ChannelMessage_CreatedAt cm) in
      handled_updates env E n c cm i skipped sd (store_calls (trace_of x)) (result_of x)
      /\ (skipped = false -> result_of x = None ->
          exists middle : list StoreCall,
            store_calls (trace_of x)
            = (SIncrBy (result_of (run E (GetDailyKey env c (ChannelMessage_CreatedAt cm)) sd))
                       n (ChannelMessage_Id cm) None
               :: middle
               ++ [SIncrBy (result_of (run E (GetSevenDayKey env c cm)
                                          (snd (run E (saveToDailyBucket env c cm i n) sd))))
                           n (ChannelMessage_Id cm) None])%list)).
Proof.
  intros mid x. subst mid x. split; [| split].
  - intros e s1 H. unfold handleInteraction. rewrite run_trigger_bind, H. reflexivity.
  - intros cm s1 e s2 H1 H2. unfold handleInteraction.
    rewrite run_trigger_bind, H1, run_trigger_bind, H2. reflexivity.
  - intros cm s1 c s2 H1 H2 now sd skipped.
    pose proof (handleInteraction_updates env ts E n i s s1 s2 cm c H1 H2) as Hu.
    fold now sd skipped in Hu. split; [exact Hu |].
    intros Hk Hr. rewrite Hk, Hr in Hu.
    apply (handled_updates_success env E n c cm i sd _ Hu).
Qed.

(** C10: the Score Store commands of a run and its result depend on the
    interaction through its [MessageId] alone: two interactions that name the
    same message, handled with the same sign from the same state of the
    environment, issue the same commands, with the same keys, deltas and
    members, and return the same result, whatever their own ids and creation
    times are. *)
Theorem C10_interaction_contributes_message_id
    (env : string) (ts : Time -> string) (E : Env) (n : Z) (i1 i2 : Interaction)
    (s : St E) :
  Interaction_MessageId i1 = Interaction_MessageId i2 ->
  store_calls (trace_of (run E (handleInteraction env ts n i1) s))
    = store_calls (trace_of (run E (handleInteraction env ts n i2) s))
  /\ result_of (run E (handleInteraction env ts n i1) s)
    = result_of (run E (handleInteraction env ts n i2) s).
Proof.
  intros Hm. unfold handleInteraction. rewrite Hm, !run_trigger_bind.
  destruct (answer E _ (ChannelMessageById (Interaction_MessageId i2)) s) as [[cm | e] s1];
    [| split; reflexivity].
  rewrite !run_trigger_bind.
  destruct (answer E _ (ChannelById (ChannelMessage_InitialChannelId cm)) s1)
    as [[c | e] s2]; [| split; reflexivity].
  destruct (notEligibleForPopularPost c cm).
  { cbn [bind trigger run]. answer_cases E. split; reflexivity. }
  unfold createdMoreThan7DaysAgo. cbn [bind trigger run].
  destruct (answer E _ TimeNow s2) as [now s3].
  destruct (moreThan7Days now (ChannelMessage_CreatedAt cm)).
  { cbn [bind trigger run]. answer_cases E. split; reflexivity. }
  split; reflexivity.
Qed.

Lemma C10_interaction_contributes_message_id_witness :
  store_calls (trace_of (run FakeEnv
                 (handleInteraction "dev" (fun _ => "2014-05-13 17:53:20 +0000 UTC") 1
                                    (aLike 42)) fakeWorld))
    = store_calls (trace_of (run FakeEnv
                 (handleInteraction "dev" (fun _ => "2014-05-13 17:53:20 +0000 UTC") 1
                    {| Interaction_Id := 2002; Interaction_MessageId := 42;
                       Interaction_CreatedAt := utc 5 |}) fakeWorld))
  /\ result_of (run FakeEnv
                 (handleInteraction "dev" (fun _ => "2014-05-13 17:53:20 +0000 UTC") 1
                                    (aLike 42)) fakeWorld)
    = result_of (run FakeEnv
                 (handleInteraction "dev" (fun _ => "2014-05-13 17:53:20 +0000 UTC") 1
                    {| Interaction_Id := 2002; Interaction_MessageId := 42;
                       Interaction_CreatedAt := utc 5 |}) fakeWorld).
Proof.
  apply (C10_interaction_contributes_message_id "dev"
           (fun _ => "2014-05-13 17:53:20 +0000 UTC") FakeEnv 1 (aLike 42)
           {| Interaction_Id := 2002; Interaction_MessageId := 42;
              Interaction_CreatedAt := utc 5 |} fakeWorld).
  reflexivity.
Defined.

(** C8: the stale-post check reads the clock once and answers "stale" exactly
    when the creation timestamp lies strictly more than seven days (7 x 24
    hours, to the nanosecond) before that reading; a message created exactly
    seven days ago, or later, is kept.  The check takes the creation timestamp
    alone: neither the channel nor the flags and type of the message enter
    it. *)
Theorem C8_createdMoreThan7DaysAgo_strict (E : Env) (s : St E) (createdAt : Time) :
  let now := fst (answer E _ TimeNow s) in
  run E (createdMoreThan7DaysAgo createdAt) s
    = (moreThan7Days now createdAt, [MkCall TimeNow now], snd (answer E _ TimeNow s))
  /\ (moreThan7Days now createdAt = true <->
      sevenDays < unix_nano now - unix_nano createdAt)
  /\ (unix_nano now - unix_nano createdAt <= sevenDays <->
      moreThan7Days now createdAt = false).
Proof.
  intros now. subst now. split; [| split].
  - unfold createdMoreThan7DaysAgo. cbn [bind trigger run].
    destruct (answer E _ TimeNow s) as [now s1]. reflexivity.
  - apply moreThan7Days_iff.
  - pose proof (moreThan7Days_iff (fst (answer E _ TimeNow s)) createdAt) as H.
    destruct (moreThan7Days (fst (answer E _ TimeNow s)) createdAt).
    + split; [intros Hle; apply proj1 in H; specialize (H eq_refl); lia | discriminate].
    + split; [reflexivity |].
      intros _. destruct (Z_le_gt_dec
                            (unix_nano (fst (answer E _ TimeNow s)) - unix_nano createdAt)
                            sevenDays) as [| Hgt]; [assumption |].
      apply proj2 in H. specialize (H ltac:(lia)). discriminate.
Qed.

(** C7: when both lookups succeed and the message is ineligible, or the clock
    shows that it was created more than seven days ago, the handler issues no
    Score Store command at all, no increment, no union, no existence check,
    and returns success. *)
Theorem C7_skipped_interaction_is_silent
    (env : string) (ts : Time -> string) (E : Env) (n : Z) (i : Interaction)
    (s s1 s2 : St E) (cm : ChannelMessage) (c : Channel) :
  answer E _ (ChannelMessageById (Interaction_MessageId i)) s = (Ok cm, s1) ->
  answer E _ (ChannelById (ChannelMessage_InitialChannelId cm)) s1 = (Ok c, s2) ->
  notEligibleForPopularPost c cm = true \/
  sevenDays < unix_nano (fst (answer E _ TimeNow s2))
              - unix_nano (ChannelMessage_CreatedAt cm) ->
  store_calls (trace_of (run E (handleInteraction env ts n i) s)) = []
  /\ result_of (run E (handleInteraction env ts n i) s) = None.
Proof.
  intros H1 H2 Hskip. unfold handleInteraction.
  rewrite run_trigger_bind, H1, run_trigger_bind, H2.
  destruct (notEligibleForPopularPost c cm) eqn:Hel.
  { cbn [bind trigger run]. answer_cases E. split; reflexivity. }
  destruct Hskip as [Hf | Hstale]; [discriminate |].
  apply moreThan7Days_iff in Hstale.
  unfold createdMoreThan7DaysAgo. cbn [bind trigger run].
  destruct (answer E _ TimeNow s2) as [now s3]. cbn [fst] in Hstale.
  rewrite Hstale. cbn [bind trigger run]. answer_cases E. split; reflexivity.
Qed.

Lemma C7_skipped_interaction_is_silent_witness :
  store_calls (trace_of (run FakeEnv
     (handleInteraction "dev" (fun _ => "2014-05-13 17:53:20 +0000 UTC") 1 (aLike 43))
     fakeWorld)) = []
  /\ result_of (run FakeEnv
     (handleInteraction "dev" (fun _ => "2014-05-13 17:53:20 +0000 UTC") 1 (aLike 43))
     fakeWorld) = None.
Proof.
  apply (C7_skipped_interaction_is_silent "dev"
           (fun _ => "2014-05-13 17:53:20 +0000 UTC") FakeEnv 1 (aLike 43)
           fakeWorld fakeWorld fakeWorld aPrivatePost privateChannel).
  - reflexivity.
  - reflexivity.
  - left. reflexivity.
Defined.

(** Scenario C of the specification: a post written eight days before the
    clock's reading is skipped without a Score Store command. *)
Lemma stale_post_is_skipped :
  run FakeEnv
    (handleInteraction "dev" (fun _ => "2014-05-13 17:53:20 +0000 UTC") 1 (aLike 42))
    {| fake_now := utc (1400000000 + 8 * 86400);
       fake_messages := [aPost]; fake_channels := [publicChannel];
       fake_keys := []; fake_failing := [] |}
  = (None,
     [MkCall (ChannelMessageById 42) (Ok aPost);
      MkCall (ChannelById 7) (Ok publicChannel);
      MkCall TimeNow (utc (1400000000 + 8 * 86400));
      MkCall (LogDebug "Post created more than 7 days ago: 1001, 2014-05-13 17:53:20 +0000 UTC" [])
             tt],
     {| fake_now := utc (1400000000 + 8 * 86400);
        fake_messages := [aPost]; fake_channels := [publicChannel];
        fake_keys := []; fake_failing := [] |}).
Proof. vm_compute. reflexivity. Qed.

(** Scenario A of the specification: a like on a fresh post of a public
    channel increments the daily bucket, finds no rolling bucket, creates it
    by the weighted union of the eight daily buckets and increments it. *)
Lemma fresh_post_is_scored :
  store_calls (trace_of (run FakeEnv
     (InteractionSaved "dev" (fun _ => "2014-05-13 17:53:20 +0000 UTC") (aLike 42))
     fakeWorld))
  = [SIncrBy "dev:koding:popularpost:public:1399939200" 1 42 None;
     SExists "%!d(string=dev:koding:popularpost:public:1399939200)-1399334400" false;
     SUnion "%!d(string=dev:koding:popularpost:public:1399939200)-1399334400"
       ["dev:koding:popularpost:public:1399939200";
        "dev:koding:popularpost:public:1399852800";
        "dev:koding:popularpost:public:1399766400";
        "dev:koding:popularpost:public:1399680000";
        "dev:koding:popularpost:public:1399593600";
        "dev:koding:popularpost:public:1399507200";
        "dev:koding:popularpost:public:1399420800";
        "dev:koding:popularpost:public:1399334400"]
       [S754_finite false 4503599627370496 (-52);
        S754_finite false 4503599627370496 (-52);
        S754_finite false 4503599627370496 (-53);
        S754_finite false 6004799503160661 (-54);
        S754_finite false 4503599627370496 (-54);
        S754_finite false 7205759403792794 (-55);
        S754_finite false 6004799503160661 (-55);
        S754_finite false 5146971002709138 (-55)]
       "SUM" None;
     SIncrBy "%!d(string=dev:koding:popularpost:public:1399939200)-1399334400" 1 42 None].
Proof. vm_compute. reflexivity. Qed.

(** Scenario B of the specification: the matching unlike, handled in the
    world scenario A leaves behind, finds the rolling bucket and decrements
    both buckets without a union. *)
Lemma unlike_after_like_decrements :
  let ts := fun _ : Time => "2014-05-13 17:53:20 +0000 UTC" in
  let world := snd (run FakeEnv (InteractionSaved "dev" ts (aLike 42)) fakeWorld) in
  store_calls (trace_of (run FakeEnv (InteractionDeleted "dev" ts (aLike 42)) world))
  = [SIncrBy "dev:koding:popularpost:public:1399939200" (-1) 42 None;
     SExists "%!d(string=dev:koding:popularpost:public:1399939200)-1399334400" true;
     SIncrBy "%!d(string=dev:koding:popularpost:public:1399939200)-1399334400" (-1) 42 None].
Proof. vm_compute. reflexivity. Qed.

(** * Further properties of the worker *)

(** ** Time helpers *)

Lemma abs_startOfDay_fixed (t : Time) (off : Z) :
  wf_time t -> loc t = FixedZone off ->
  abs (getStartOfDay t) = 86400 * ((unix_sec t + off) / 86400).
Proof.
  intros W L. rewrite getStartOfDay_eq by exact W.
  unfold abs. cbn [unix_sec loc]. rewrite L. cbn [zone_offset FixedZone].
  pose proof (Z.div_mod (unix_sec t + off) 86400 ltac:(lia)). lia.
Qed.

Lemma startOfDay_bounds (t : Time) :
  wf_time t -> 0 <= Unix t - Unix (getStartOfDay t) < 86400.
Proof.
  intros W. rewrite getStartOfDay_eq by exact W. unfold Unix. cbn [unix_sec].
  pose proof (Z.mod_pos_bound (abs t) 86400 ltac:(lia)). lia.
Qed.

Lemma startOfDay_idempotent (t : Time) (off : Z) :
  wf_time t -> loc t = FixedZone off ->
  getStartOfDay (getStartOfDay t) = getStartOfDay t.
Proof.
  intros W L.
  assert (W' : wf_time (getStartOfDay t)).
  { rewrite getStartOfDay_eq by exact W. exact W. }
  rewrite (getStartOfDay_eq (getStartOfDay t) W').
  rewrite (abs_startOfDay_fixed t off W L).
  replace (86400 * ((unix_sec t + off) / 86400))
    with ((unix_sec t + off) / 86400 * 86400) by ring.
  rewrite Z.mod_mul by lia. rewrite Z.sub_0_r.
  destruct (getStartOfDay t); reflexivity.
Qed.

(** X1: [getStartOfDay] goes back to the last midnight of the timestamp's own
    wall clock, less than a day earlier, and leaves the nanoseconds alone: in
    a location with a fixed offset the result reads 00:00:00 on the wall
    clock, with the nanoseconds of the input. *)
Theorem X1_getStartOfDay_midnight (t : Time) (off : Z) :
  wf_time t -> loc t = FixedZone off ->
  Hour_of (getStartOfDay t) = 0 /\
  Minute_of (getStartOfDay t) = 0 /\
  Second_of (getStartOfDay t) = 0 /\
  nsec (getStartOfDay t) = nsec t /\
  loc (getStartOfDay t) = loc t /\
  0 <= Unix t - Unix (getStartOfDay t) < 86400.
Proof.
  intros W L. unfold Hour_of, Minute_of, Second_of.
  rewrite (abs_startOfDay_fixed t off W L).
  rewrite getStartOfDay_eq by exact W. unfold Unix. cbn [unix_sec nsec loc].
  pose proof (Z.mod_pos_bound (abs t) 86400 ltac:(lia)).
  set (q := (unix_sec t + off) / 86400).
  replace (86400 * q) with (q * 86400) by ring. rewrite Z.mod_mul by lia.
  replace (q * 86400) with (q * 24 * 3600) by ring. rewrite Z.mod_mul by lia.
  replace (q * 24 * 3600) with (q * 1440 * 60) by ring. rewrite Z.mod_mul by lia.
  repeat split; try reflexivity; lia.
Qed.

Lemma X1_getStartOfDay_midnight_witness :
  Hour_of (getStartOfDay (utc 1400000000)) = 0 /\
  Minute_of (getStartOfDay (utc 1400000000)) = 0 /\
  Second_of (getStartOfDay (utc 1400000000)) = 0 /\
  nsec (getStartOfDay (utc 1400000000)) = nsec (utc 1400000000) /\
  loc (getStartOfDay (utc 1400000000)) = loc (utc 1400000000) /\
  0 <= Unix (utc 1400000000) - Unix (getStartOfDay (utc 1400000000)) < 86400.
Proof.
  apply (X1_getStartOfDay_midnight (utc 1400000000) 0).
  - unfold wf_time; simpl; lia.
  - reflexivity.
Defined.

(** X2: in a location with a fixed offset [getStartOfDay] is idempotent: the
    second truncation [createSevenDayCombinedBucket] applies to a day start
    changes nothing. *)
Theorem X2_getStartOfDay_idempotent (t : Time) (off : Z) :
  wf_time t -> loc t = FixedZone off ->
  getStartOfDay (getStartOfDay t) = getStartOfDay t.
Proof. apply startOfDay_idempotent. Qed.

Lemma X2_getStartOfDay_idempotent_witness :
  getStartOfDay (getStartOfDay (utc 1400000000)) = getStartOfDay (utc 1400000000).
Proof.
  apply (X2_getStartOfDay_idempotent (utc 1400000000) 0).
  - unfold wf_time; simpl; lia.
  - reflexivity.
Defined.

Lemma daysAgo_offset (days : Z) :
  - maxDays <= days <= maxDays ->
  Int64.mul (Int64.mul (Int64.neg Hour) 24) days = - (86400 * days) * 1000000000.
Proof.
  unfold maxDays. intros H. change Hour with 3600000000000.
  unfold Int64.mul, Int64.neg.
  assert (R : forall z, - 2 ^ 63 <= z <= 2 ^ 63 - 1 -> Int64.wrap z = z).
  { intros z Hz. apply wrap_in_range.
    unfold Int64.in_range, Int64.min_int, Int64.max_int. lia. }
  rewrite (R (Z.opp 3600000000000)) by lia.
  rewrite (R (Z.opp 3600000000000 * 24)) by lia.
  rewrite R by lia. lia.
Qed.

Lemma getXDaysAgo_eq (t : Time) (days : Z) :
  wf_time t -> - maxDays <= days <= maxDays ->
  getXDaysAgo t days =
  {| unix_sec := unix_sec t - 86400 * days; nsec := nsec t; loc := loc t |}.
Proof.
  intros W H. unfold getXDaysAgo. rewrite daysAgo_offset by exact H.
  rewrite Add_whole_seconds by exact W. reflexivity.
Qed.

(** X3: for at most 106751 days, back or forth, [getXDaysAgo] moves a
    timestamp by exactly that many times 86400 seconds and keeps its
    nanoseconds and location; one day more and the [int64] count of
    nanoseconds wraps, so that "106752 days ago" lies in the future. *)
Theorem X3_getXDaysAgo_exact (t : Time) (days : Z) :
  wf_time t -> - maxDays <= days <= maxDays ->
  Unix (getXDaysAgo t days) = Unix t - 86400 * days /\
  nsec (getXDaysAgo t days) = nsec t /\
  loc (getXDaysAgo t days) = loc t /\
  Unix t < Unix (getXDaysAgo t (maxDays + 1)).
Proof.
  intros W H. rewrite getXDaysAgo_eq by assumption.
  unfold Unix. cbn [unix_sec nsec loc]. repeat split.
  unfold getXDaysAgo, maxDays.
  change (Int64.mul (Int64.mul (Int64.neg Hour) 24) (106751 + 1))
    with (9223371273709551616).
  unfold Add.
  change (Z.rem 9223371273709551616 1000000000) with 709551616.
  change (Z.quot 9223371273709551616 1000000000) with 9223371273.
  unfold wf_time in W.
  destruct (Z.leb_spec 1000000000 (nsec t + 709551616)); cbn [unix_sec]; [lia |].
  destruct (Z.ltb_spec (nsec t + 709551616) 0); cbn [unix_sec]; lia.
Qed.

Lemma X3_getXDaysAgo_exact_witness :
  Unix (getXDaysAgo (utc 1400000000) 7) = Unix (utc 1400000000) - 86400 * 7 /\
  nsec (getXDaysAgo (utc 1400000000) 7) = nsec (utc 1400000000) /\
  loc (getXDaysAgo (utc 1400000000) 7) = loc (utc 1400000000) /\
  Unix (utc 1400000000) < Unix (getXDaysAgo (utc 1400000000) (maxDays + 1)).
Proof.
  apply (X3_getXDaysAgo_exact (utc 1400000000) 7).
  - unfold wf_time; simpl; lia.
  - unfold maxDays; lia.
Defined.

(** X4: going back [a] days and then [b] days is going back [a + b] days, as
    long as none of the three counts overflows. *)
Theorem X4_getXDaysAgo_compose (t : Time) (a b : Z) :
  wf_time t ->
  - maxDays <= a <= maxDays -> - maxDays <= b <= maxDays ->
  - maxDays <= a + b <= maxDays ->
  getXDaysAgo (getXDaysAgo t a) b = getXDaysAgo t (a + b).
Proof.
  intros W Ha Hb Hab.
  assert (W' : wf_time (getXDaysAgo t a)) by (rewrite getXDaysAgo_eq by assumption; exact W).
  rewrite (getXDaysAgo_eq (getXDaysAgo t a) b W' Hb).
  rewrite (getXDaysAgo_eq t a W Ha), (getXDaysAgo_eq t (a + b) W Hab).
  cbn [unix_sec nsec loc]. f_equal. lia.
Qed.

Lemma X4_getXDaysAgo_compose_witness :
  getXDaysAgo (getXDaysAgo (utc 1400000000) 3) 4 = getXDaysAgo (utc 1400000000) (3 + 4).
Proof.
  apply (X4_getXDaysAgo_compose (utc 1400000000) 3 4);
    try (unfold maxDays; lia). unfold wf_time; simpl; lia.
Defined.

(** ** Keys *)

Lemma has_char_append (c : ascii) (a b : string) :
  has_char c (a ++ b) = has_char c a || has_char c b.
Proof.
  induction a as [| x a IH]; simpl; [reflexivity |].
  rewrite IH. apply orb_assoc.
Qed.

(** Two strings that agree up to and including the first occurrence of a
    separator have the same text before it and the same text after it. *)
Lemma split_at_separator (c : ascii) (a a' r r' : string) :
  has_char c a = false -> has_char c a' = false ->
  a ++ String c r = a' ++ String c r' -> a = a' /\ r = r'.
Proof.
  revert a'. induction a as [| x a IH]; intros [| x' a'] Ha Ha' H; simpl in *.
  - injection H as H. split; [reflexivity | exact H].
  - injection H as Hc _. subst x'. rewrite Ascii.eqb_refl in Ha'. discriminate.
  - injection H as Hc _. subst x. rewrite Ascii.eqb_refl in Ha. discriminate.
  - injection H as Hx H. subst x'.
    apply orb_false_iff in Ha. apply orb_false_iff in Ha'.
    destruct (IH a' (proj2 Ha) (proj2 Ha') H) as [-> ->]. split; reflexivity.
Qed.

Lemma uint_chars (c : ascii) (d : Decimal.uint) :
  has_char c "0123456789" = false ->
  has_char c (NilEmpty.string_of_uint d) = false.
Proof.
  intros Hc. simpl in Hc.
  repeat (apply orb_false_iff in Hc; destruct Hc as [? Hc]).
  induction d; simpl; try reflexivity;
    rewrite IHd, orb_false_r; assumption.
Qed.

(** The decimal rendering of an integer holds digits and a minus sign
    only. *)
Lemma FormatInt_chars (c : ascii) (n : Z) :
  has_char c "-0123456789" = false -> has_char c (Fmt.FormatInt n) = false.
Proof.
  intros Hc. simpl in Hc. apply orb_false_iff in Hc. destruct Hc as [Hm Hc].
  assert (Hd : has_char c "0123456789" = false) by exact Hc.
  assert (Hu : forall d, has_char c (NilZero.string_of_uint d) = false).
  { intros d. destruct d; try apply (uint_chars c _ Hd).
    simpl. simpl in Hc. apply orb_false_iff in Hc. destruct Hc as [H0 _].
    rewrite H0. reflexivity. }
  unfold Fmt.FormatInt, NilZero.string_of_int.
  destruct (Z.to_int n) as [d | d]; [apply Hu |].
  simpl. rewrite Hm. apply Hu.
Qed.

(** X5: for one environment, the daily key tells its group, channel name and
    day apart whenever the names hold no colon: two keys are equal only for
    equal groups, equal names and equal days. *)
Theorem X5_PreparePopularPostKey_injective
    (env g g' n n' : string) (d d' : Z) :
  has_char ":" g = false -> has_char ":" g' = false ->
  has_char ":" n = false -> has_char ":" n' = false ->
  PreparePopularPostKey env g n d = PreparePopularPostKey env g' n' d' ->
  g = g' /\ n = n' /\ d = d'.
Proof.
  intros Hg Hg' Hn Hn'. rewrite !PreparePopularPostKey_eq. intros H.
  apply append_inv_head in H. injection H as H.
  apply (split_at_separator ":" g g' _ _ Hg Hg') in H. destruct H as [-> H].
  injection H as H.
  apply (split_at_separator ":" n n' _ _ Hn Hn') in H. destruct H as [-> H].
  apply FormatInt_inj in H. repeat split; assumption.
Qed.

Lemma X5_PreparePopularPostKey_injective_witness :
  "koding" = "koding" /\ "public" = "public" /\ 1399939200 = 1399939200.
Proof.
  apply (X5_PreparePopularPostKey_injective "dev" "koding" "koding" "public" "public"
           1399939200 1399939200); reflexivity.
Defined.

(** The names of the sources decide: with a colon inside a name, two
    different channels can share a daily key. *)
Lemma PreparePopularPostKey_collision :
  PreparePopularPostKey "dev" "a:popularpost:b" "c" 0
  = PreparePopularPostKey "dev" "a" "b:popularpost:c" 0.
Proof. reflexivity. Qed.

Lemma IsZero_after_year_one (t : Time) :
  - GoTime.unixToInternal < unix_sec t -> IsZero t = false.
Proof.
  unfold IsZero, GoTime.unixToInternal. intros H.
  destruct (Z.eqb_spec (unix_sec t + 62135596800) 0); [lia | reflexivity].
Qed.

(** The daily key of a day [i] days before a day start, in a location with a
    fixed offset. *)
Lemma dailyKey_days_before (env : string) (c : Channel) (t : Time) (off i : Z) :
  wf_time t -> loc t = FixedZone off -> - maxDays <= i <= maxDays ->
  dailyKey env c (getXDaysAgo (getStartOfDay t) i)
  = PreparePopularPostKey env (Channel_GroupName c) (Channel_Name c)
      (Unix (getStartOfDay t) - 86400 * i).
Proof.
  intros W L Hi. unfold dailyKey. f_equal.
  assert (W' : wf_time (getStartOfDay t)) by (rewrite getStartOfDay_eq by exact W; exact W).
  pose proof (abs_startOfDay_fixed t off W L) as Ha.
  rewrite (getXDaysAgo_eq (getStartOfDay t) i W' Hi).
  rewrite getStartOfDay_eq by exact W'.
  unfold Unix, abs in *. cbn [unix_sec nsec loc] in *.
  assert (Hl : loc (getStartOfDay t) = FixedZone off)
    by (rewrite getStartOfDay_eq by exact W; exact L).
  rewrite Hl in *. cbn [zone_offset FixedZone] in *.
  replace (unix_sec (getStartOfDay t) - 86400 * i + off)
    with (((unix_sec t + off) / 86400 - i) * 86400) by lia.
  rewrite Z.mod_mul by lia. lia.
Qed.

(** X6: for a timestamp after the epoch in a location with a fixed offset,
    the sources of the weighted union are the daily keys of eight consecutive
    days, the day of the timestamp first and the day seven days earlier
    last. *)
Theorem X6_union_sources_consecutive_days
    (env : string) (E : Env) (c : Channel) (cm : ChannelMessage) (key : string)
    (from : Time) (off : Z) (s : St E) :
  wf_time from -> loc from = FixedZone off -> 0 <= unix_sec from ->
  store_calls (trace_of (run E (createSevenDayCombinedBucket env c cm key from) s))
  = [SUnion key
       (map (fun i => PreparePopularPostKey env (Channel_GroupName c) (Channel_Name c)
                        (Unix (getStartOfDay from) - 86400 * i))
            [0; 1; 2; 3; 4; 5; 6; 7])
       (map weightOf [0; 1; 2; 3; 4; 5; 6; 7]) "SUM"
       (result_of (run E (createSevenDayCombinedBucket env c cm key from) s))].
Proof.
  intros W L Hpos.
  destruct (createSevenDayCombinedBucket_run env E c cm key from s)
    as (ks & err & Hs & Hr & Hf).
  rewrite Hs, Hr. f_equal. f_equal.
  assert (W' : wf_time (getStartOfDay from))
    by (rewrite getStartOfDay_eq by exact W; exact W).
  assert (L' : loc (getStartOfDay from) = FixedZone off)
    by (rewrite getStartOfDay_eq by exact W; exact L).
  pose proof (startOfDay_bounds from W) as Hb.
  rewrite (keys_of_nonzero_days env E c (getStartOfDay from) _ ks Hf).
  - apply map_ext_in. intros i Hi.
    rewrite <- (startOfDay_idempotent from off W L) at 1.
    rewrite (dailyKey_days_before env c (getStartOfDay from) off i W' L').
    + rewrite (startOfDay_idempotent from off W L). reflexivity.
    + unfold maxDays. simpl in Hi. lia.
  - intros i Hi. apply IsZero_after_year_one.
    rewrite (getXDaysAgo_eq (getStartOfDay from) i W')
      by (unfold maxDays; simpl in Hi; lia).
    cbn [unix_sec]. unfold GoTime.unixToInternal, Unix in *. simpl in Hi. lia.
Qed.

Lemma X6_union_sources_consecutive_days_witness :
  store_calls (trace_of (run FakeEnv
     (createSevenDayCombinedBucket "dev" publicChannel aPost "rolling" (utc 1400000000))
     fakeWorld))
  = [SUnion "rolling"
       (map (fun i => PreparePopularPostKey "dev" (Channel_GroupName publicChannel)
                        (Channel_Name publicChannel)
                        (Unix (getStartOfDay (utc 1400000000)) - 86400 * i))
            [0; 1; 2; 3; 4; 5; 6; 7])
       (map weightOf [0; 1; 2; 3; 4; 5; 6; 7]) "SUM"
       (result_of (run FakeEnv
          (createSevenDayCombinedBucket "dev" publicChannel aPost "rolling" (utc 1400000000))
          fakeWorld))].
Proof.
  apply (X6_union_sources_consecutive_days "dev" FakeEnv publicChannel aPost "rolling"
           (utc 1400000000) 0 fakeWorld).
  - unfold wf_time; simpl; lia.
  - reflexivity.
  - simpl; lia.
Defined.

Lemma PreparePopularPostKey_prefix (env g n : string) :
  exists P : string,
    forall d : Z, PreparePopularPostKey env g n d = P ++ Fmt.FormatInt d.
Proof.
  exists (env ++ ":" ++ g ++ ":" ++ "popularpost" ++ ":" ++ n ++ ":").
  intros d. rewrite PreparePopularPostKey_eq.
  repeat (rewrite append_assoc; cbn [append]). reflexivity.
Qed.

Lemma GetSevenDayKey_nonzero (env : string) (c : Channel) (cm : ChannelMessage) :
  IsZero (ChannelMessage_CreatedAt cm) = false ->
  GetSevenDayKey env c cm
  = Ret ("%!d(string=" ++ dailyKey env c (ChannelMessage_CreatedAt cm) ++ ")-"
         ++ Fmt.FormatInt (Unix (getXDaysAgo (getStartOfDay (ChannelMessage_CreatedAt cm)) 7))).
Proof.
  intros Hz. unfold GetSevenDayKey. rewrite (GetDailyKey_nonzero env c _ Hz).
  cbn [bind].
  generalize (dailyKey env c (ChannelMessage_CreatedAt cm)).
  generalize (Unix (getXDaysAgo (getStartOfDay (ChannelMessage_CreatedAt cm)) 7)).
  intros z k. cbn. rewrite append_empty_r, append_assoc. reflexivity.
Qed.

Lemma GetSevenDayKey_utc (env : string) (c : Channel) (cm : ChannelMessage) :
  wf_time (ChannelMessage_CreatedAt cm) ->
  loc (ChannelMessage_CreatedAt cm) = UTCLoc ->
  IsZero (ChannelMessage_CreatedAt cm) = false ->
  GetSevenDayKey env c cm
  = Ret ("%!d(string="
         ++ PreparePopularPostKey env (Channel_GroupName c) (Channel_Name c)
              (86400 * utc_day (ChannelMessage_CreatedAt cm))
         ++ ")-"
         ++ Fmt.FormatInt (86400 * utc_day (ChannelMessage_CreatedAt cm) - 604800)).
Proof.
  intros W L Hz. rewrite (GetSevenDayKey_nonzero env c cm Hz). unfold dailyKey.
  assert (W' : wf_time (getStartOfDay (ChannelMessage_CreatedAt cm)))
    by (rewrite getStartOfDay_eq by exact W; exact W).
  rewrite (getXDaysAgo_eq _ 7 W') by (unfold maxDays; lia).
  unfold Unix at 2. cbn [unix_sec].
  fold (Unix (getStartOfDay (ChannelMessage_CreatedAt cm))).
  rewrite (getStartOfDay_utc _ W L). reflexivity.
Qed.

(** X7: for creation timestamps in the UTC location, the rolling key of a
    channel is a key of the UTC calendar day: two messages created on the same
    day share their rolling key, and messages created on different days have
    different rolling keys. *)
Theorem X7_rolling_key_per_day
    (env : string) (c : Channel) (cm1 cm2 : ChannelMessage) :
  wf_time (ChannelMessage_CreatedAt cm1) -> wf_time (ChannelMessage_CreatedAt cm2) ->
  loc (ChannelMessage_CreatedAt cm1) = UTCLoc ->
  loc (ChannelMessage_CreatedAt cm2) = UTCLoc ->
  IsZero (ChannelMessage_CreatedAt cm1) = false ->
  IsZero (ChannelMessage_CreatedAt cm2) = false ->
  (GetSevenDayKey env c cm1 = GetSevenDayKey env c cm2 <->
   utc_day (ChannelMessage_CreatedAt cm1) = utc_day (ChannelMessage_CreatedAt cm2)).
Proof.
  intros W1 W2 L1 L2 Z1 Z2.
  rewrite (GetSevenDayKey_utc env c cm1 W1 L1 Z1), (GetSevenDayKey_utc env c cm2 W2 L2 Z2).
  split.
  - intros H. apply Ret_inj in H. apply append_inv_head in H.
    destruct (PreparePopularPostKey_prefix env (Channel_GroupName c) (Channel_Name c))
      as [P HP].
    rewrite !HP, !append_assoc in H.
    apply append_inv_head in H.
    apply (split_at_separator ")") in H;
      [| apply FormatInt_chars; reflexivity | apply FormatInt_chars; reflexivity].
    destruct H as [H _]. apply FormatInt_inj in H. lia.
  - intros ->. reflexivity.
Qed.

Lemma X7_rolling_key_per_day_witness :
  GetSevenDayKey "dev" publicChannel aPost = GetSevenDayKey "dev" publicChannel aPost <->
  utc_day (ChannelMessage_CreatedAt aPost) = utc_day (ChannelMessage_CreatedAt aPost).
Proof.
  apply (X7_rolling_key_per_day "dev" publicChannel aPost aPost);
    try reflexivity; unfold wf_time; simpl; lia.
Defined.

(** X8: a zero date makes [GetDailyKey] read the clock, once, and return the
    daily key of the current UTC day, whatever location the clock's reading
    carries. *)
Theorem X8_GetDailyKey_zero_date_is_today
    (env : string) (E : Env) (c : Channel) (date : Time) (s : St E) :
  IsZero date = true ->
  wf_time (fst (answer E _ TimeNow s)) ->
  run E (GetDailyKey env c date) s
  = (PreparePopularPostKey env (Channel_GroupName c) (Channel_Name c)
       (86400 * utc_day (fst (answer E _ TimeNow s))),
     [MkCall TimeNow (fst (answer E _ TimeNow s))],
     snd (answer E _ TimeNow s)).
Proof.
  intros Hz W. rewrite (GetDailyKey_zero env c date Hz). cbn [run].
  destruct (answer E _ TimeNow s) as [now s1]. cbn [fst snd] in *.
  unfold dailyKey.
  rewrite (getStartOfDay_utc (UTC now)) by (try exact W; reflexivity).
  reflexivity.
Qed.

Lemma X8_GetDailyKey_zero_date_is_today_witness :
  run FakeEnv (GetDailyKey "dev" publicChannel zeroTime) fakeWorld
  = (PreparePopularPostKey "dev" (Channel_GroupName publicChannel)
       (Channel_Name publicChannel)
       (86400 * utc_day (fst (answer FakeEnv _ TimeNow fakeWorld))),
     [MkCall TimeNow (fst (answer FakeEnv _ TimeNow fakeWorld))],
     snd (answer FakeEnv _ TimeNow fakeWorld)).
Proof.
  apply (X8_GetDailyKey_zero_date_is_today "dev" FakeEnv publicChannel zeroTime fakeWorld).
  - reflexivity.
  - unfold wf_time; simpl; lia.
Defined.

(** ** Weights *)

(** X9: the weights of the union never increase with the age of the bucket,
    all of them are positive, and the two youngest buckets, today's and
    yesterday's, both weigh 1.0. *)
Theorem X9_union_weights_shape
    (env : string) (E : Env) (c : Channel) (cm : ChannelMessage) (key : string)
    (from : Time) (s : St E) :
  exists (ks : list string) (ws : list Float64.float64) (err : option error),
    store_calls (trace_of (run E (createSevenDayCombinedBucket env c cm key from) s))
      = [SUnion key ks ws "SUM" err]
    /\ non_increasing ws = true
    /\ forallb (Float64.ltb Float64.zero) ws = true
    /\ nth 0 ws Float64.zero = Float64.one
    /\ nth 1 ws Float64.zero = Float64.one.
Proof.
  destruct (createSevenDayCombinedBucket_run env E c cm key from s)
    as (ks & err & Hs & _ & _).
  exists ks, (map weightOf [0; 1; 2; 3; 4; 5; 6; 7]), err.
  split; [exact Hs |]. repeat split; vm_compute; reflexivity.
Qed.

(** ** The stale-post check *)

(** X10: staleness only grows: a post that is stale at one reading of the
    clock is stale at every later reading, an older post is stale whenever a
    younger one is, and a post dated at or after the clock's reading is never
    stale. *)
Theorem X10_staleness_monotone (now now' createdAt createdAt' : Time) :
  unix_nano now <= unix_nano now' ->
  unix_nano createdAt' <= unix_nano createdAt ->
  (moreThan7Days now createdAt = true -> moreThan7Days now' createdAt' = true) /\
  (unix_nano now <= unix_nano createdAt -> moreThan7Days now createdAt = false).
Proof.
  intros Hn Hc. split.
  - rewrite !moreThan7Days_iff. lia.
  - intros Hf. destruct (moreThan7Days now createdAt) eqn:Hm; [| reflexivity].
    apply moreThan7Days_iff in Hm. unfold sevenDays in Hm. lia.
Qed.

Lemma X10_staleness_monotone_witness :
  (moreThan7Days (utc 1400700000) (utc 1400000000) = true ->
   moreThan7Days (utc 1400800000) (utc 1399000000) = true) /\
  (unix_nano (utc 1400700000) <= unix_nano (utc 1400000000) ->
   moreThan7Days (utc 1400700000) (utc 1400000000) = false).
Proof.
  apply (X10_staleness_monotone (utc 1400700000) (utc 1400800000)
           (utc 1400000000) (utc 1399000000)); vm_compute; discriminate.
Defined.

(** ** Footprints *)

Lemma calls_of_app (P : EventClass) (tr1 tr2 : list Call) :
  calls_of P (tr1 ++ tr2) = (calls_of P tr1 ++ calls_of P tr2)%list.
Proof. apply filter_app. Qed.

Lemma avoids_run {A : Type} (P : EventClass) (E : Env) (p : Prog A) :
  avoids P p -> forall s : St E, calls_of P (trace_of (run E p s)) = [].
Proof.
  induction p as [a | R e k IH]; intros Hp s; [reflexivity |].
  destruct Hp as [He Hk]. cbn [run].
  destruct (answer E R e s) as [r s1].
  specialize (IH r (Hk r) s1).
  destruct (run E (k r) s1) as [[a tr] s2].
  unfold trace_of in *; cbn [fst snd] in *.
  unfold calls_of in *; cbn [filter]. rewrite He. exact IH.
Qed.

Lemma avoids_bind {A B : Type} (P : EventClass) (p : Prog A) (f : A -> Prog B) :
  avoids P p -> (forall a, avoids P (f a)) -> avoids P (bind p f).
Proof.
  induction p as [a | R e k IH]; intros Hp Hf; cbn [bind avoids] in *.
  - apply Hf.
  - destruct Hp as [He Hk]. split; [exact He |].
    intros r. apply IH; [apply Hk | exact Hf].
Qed.

Lemma avoids_trigger {R : Type} (P : EventClass) (e : Event R) :
  P _ e = false -> avoids P (trigger e).
Proof. intros He. split; [exact He |]. intros r. exact I. Qed.

(** The updates of the two buckets trigger the clock and the Score Store and
    nothing else. *)
Section UpdateFootprint.

Variable P : EventClass.
Hypothesis P_clock : P _ TimeNow = false.
Hypothesis P_exists : forall key, P _ (RedisExists key) = false.
Hypothesis P_incr : forall key n item, P _ (RedisSortedSetIncrBy key n item) = false.
Hypothesis P_union : forall dst ks ws agg, P _ (RedisSortedSetsUnion dst ks ws agg) = false.

Lemma GetDailyKey_avoids (env : string) (c : Channel) (date : Time) :
  avoids P (GetDailyKey env c date).
Proof.
  unfold GetDailyKey. destruct (IsZero date).
  - apply avoids_bind; [apply avoids_trigger, P_clock | intros; exact I].
  - exact I.
Qed.

Lemma GetSevenDayKey_avoids (env : string) (c : Channel) (cm : ChannelMessage) :
  avoids P (GetSevenDayKey env c cm).
Proof.
  unfold GetSevenDayKey. apply avoids_bind; [apply GetDailyKey_avoids | intros; exact I].
Qed.

Lemma combinedBucketLoop_avoids (env : string) (c : Channel) (from : Time) (days : list Z) :
  forall (keys : list string) (weights : list Float64.float64),
    avoids P (combinedBucketLoop env c from days keys weights).
Proof.
  induction days as [| i days IH]; intros keys weights; cbn [combinedBucketLoop].
  - exact I.
  - apply avoids_bind; [apply GetDailyKey_avoids | intros k; apply IH].
Qed.

Lemma createSevenDayCombinedBucket_avoids (env : string) (c : Channel)
    (cm : ChannelMessage) (key : string) (from : Time) :
  avoids P (createSevenDayCombinedBucket env c cm key from).
Proof.
  unfold createSevenDayCombinedBucket.
  apply avoids_bind; [apply combinedBucketLoop_avoids |].
  intros [ks ws]. apply avoids_bind; [apply avoids_trigger, P_union | intros; exact I].
Qed.

Lemma saveToDailyBucket_avoids (env : string) (c : Channel) (cm : ChannelMessage)
    (i : Interaction) (n : Z) :
  avoids P (saveToDailyBucket env c cm i n).
Proof.
  unfold saveToDailyBucket. apply avoids_bind; [apply GetDailyKey_avoids |].
  intros k. apply avoids_bind; [apply avoids_trigger, P_incr | intros; exact I].
Qed.

Lemma saveToSevenDayBucket_avoids (env : string) (c : Channel) (cm : ChannelMessage)
    (i : Interaction) (n : Z) :
  avoids P (saveToSevenDayBucket env c cm i n).
Proof.
  unfold saveToSevenDayBucket. apply avoids_bind; [apply GetSevenDayKey_avoids |].
  intros key. apply avoids_bind; [apply avoids_trigger, P_exists |].
  intros found. destruct (negb found).
  - apply avoids_bind; [apply createSevenDayCombinedBucket_avoids |].
    intros [e |]; [exact I |].
    apply avoids_bind; [apply avoids_trigger, P_incr | intros; exact I].
  - apply avoids_bind; [apply avoids_trigger, P_incr | intros; exact I].
Qed.

Lemma updates_avoid (env : string) (c : Channel) (cm : ChannelMessage)
    (i : Interaction) (n : Z) :
  avoids P (err <- saveToDailyBucket env c cm i n ;;
            match err with
            | Some e => Ret (Some e)
            | None =>
                err <- saveToSevenDayBucket env c cm i n ;;
                match err with
                | Some e => Ret (Some e)
                | None => Ret None
                end
            end).
Proof.
  apply avoids_bind; [apply saveToDailyBucket_avoids |].
  intros [e |]; [exact I |].
  apply avoids_bind; [apply saveToSevenDayBucket_avoids |].
  intros [e |]; exact I.
Qed.

End UpdateFootprint.

Lemma delivery_calls_of (tr : list Call) :
  calls_of is_delivery_event tr = [] -> delivery_calls tr = [].
Proof.
  induction tr as [| [R e r] tr IH]; [reflexivity |].
  unfold calls_of. cbn [filter delivery_calls delivery_call].
  destruct e; cbn [is_delivery_event]; try exact IH; discriminate.
Qed.

(** X11: the handler leaves the delivery alone: whatever the environment
    answers, a run of [handleInteraction] neither acknowledges nor rejects a
    delivery, so nothing is requeued by it; and the error handler in turn
    reads no model, no clock and no Score Store, and logs exactly once. *)
Theorem X11_handler_and_error_handler_footprints
    (env : string) (ts : Time -> string) (E : Env) (n : Z) (i : Interaction)
    (d : Delivery) (err : error) (s : St E) :
  delivery_calls (trace_of (run E (handleInteraction env ts n i) s)) = []
  /\ requeued (trace_of (run E (handleInteraction env ts n i) s)) = false
  /\ calls_of is_data_event (trace_of (run E (DefaultErrHandler d err) s)) = []
  /\ List.length (log_calls (trace_of (run E (DefaultErrHandler d err) s))) = 1%nat.
Proof.
  assert (Hd : delivery_calls (trace_of (run E (handleInteraction env ts n i) s)) = []).
  { apply delivery_calls_of, avoids_run.
    unfold handleInteraction.
    apply avoids_bind; [apply avoids_trigger; reflexivity |].
    intros [cm | e]; [| exact I].
    apply avoids_bind; [apply avoids_trigger; reflexivity |].
    intros [c | e]; [| exact I].
    destruct (notEligibleForPopularPost c cm).
    { apply avoids_bind; [apply avoids_trigger; reflexivity | intros; exact I]. }
    apply avoids_bind.
    { unfold createdMoreThan7DaysAgo.
      apply avoids_bind; [apply avoids_trigger; reflexivity | intros; exact I]. }
    intros [|].
    { apply avoids_bind; [apply avoids_trigger; reflexivity | intros; exact I]. }
    apply updates_avoid; reflexivity. }
  split; [exact Hd |]. split; [unfold requeued; rewrite Hd; reflexivity |].
  unfold DefaultErrHandler, log_calls.
  destruct (Redelivered d); cbn [bind trigger run]; answer_cases E; split; reflexivity.
Qed.

(** X12: the handler logs at most once, and only when it skips: a run that
    logs has issued no Score Store command and returns success, so a run that
    returns an error, or that touched the Score Store, has logged nothing. *)
Theorem X12_handler_logs_only_skips
    (env : string) (ts : Time -> string) (E : Env) (n : Z) (i : Interaction) (s : St E) :
  let x := run E (handleInteraction env ts n i) s in
  (List.length (log_calls (trace_of x)) <= 1)%nat
  /\ (log_calls (trace_of x) <> [] ->
      store_calls (trace_of x) = [] /\ result_of x = None).
Proof.
  cbv zeta. unfold handleInteraction. rewrite run_trigger_bind.
  destruct (answer E _ (ChannelMessageById (Interaction_MessageId i)) s) as [[cm | e] s1];
    [| split; [cbn; lia | intros H; exfalso; apply H; reflexivity]].
  rewrite run_trigger_bind.
  destruct (answer E _ (ChannelById (ChannelMessage_InitialChannelId cm)) s1)
    as [[c | e] s2];
    [| split; [cbn; lia | intros H; exfalso; apply H; reflexivity]].
  destruct (notEligibleForPopularPost c cm).
  { cbn [bind trigger run]. answer_cases E.
    split; [cbn; lia | intros _; split; reflexivity]. }
  unfold createdMoreThan7DaysAgo. cbn [bind trigger run].
  destruct (answer E _ TimeNow s2) as [now s3].
  destruct (moreThan7Days now (ChannelMessage_CreatedAt cm)).
  { cbn [bind trigger run]. answer_cases E.
    split; [cbn; lia | intros _; split; reflexivity]. }
  pose proof (avoids_run is_log_event E _
                (updates_avoid is_log_event eq_refl (fun _ => eq_refl)
                   (fun _ _ _ => eq_refl) (fun _ _ _ _ => eq_refl) env c cm i n) s3) as Hq.
  destruct (run E _ s3) as [[r tr] s4].
  unfold trace_of, result_of, log_calls in *; cbn [fst snd] in *.
  unfold calls_of in *. cbn [filter is_log_event]. rewrite Hq.
  split; [cbn; lia | intros H; exfalso; apply H; reflexivity].
Qed.

(** ** The commands of a handled interaction *)

Lemma rolling_outcome_shape (key : string) (n item : Z) (calls : list StoreCall)
    (err : option error) :
  rolling_outcome key n item calls err ->
  (List.length calls <= 3)%nat
  /\ (List.length (filter is_union calls) <= 1)%nat
  /\ (List.length (filter is_incr calls) <= 1)%nat
  /\ Forall (carries n item) calls
  /\ (err = None -> List.length (filter is_incr calls) = 1%nat).
Proof.
  intros H. destruct H; cbn; repeat split; try lia;
    repeat constructor; try discriminate.
Qed.

(** X13: when both lookups succeed, a handled interaction sends the Score
    Store at most four commands, among them at most one union and at most two
    increments; every increment carries the handler's signed delta and the id
    of the looked-up message as its member; and a run that changed the Score
    Store and returns success has incremented twice, once per bucket. *)
Theorem X13_handled_commands_bounded
    (env : string) (ts : Time -> string) (E : Env) (n : Z) (i : Interaction)
    (s s1 s2 : St E) (cm : ChannelMessage) (c : Channel) :
  answer E _ (ChannelMessageById (Interaction_MessageId i)) s = (Ok cm, s1) ->
  answer E _ (ChannelById (ChannelMessage_InitialChannelId cm)) s1 = (Ok c, s2) ->
  let calls := store_calls (trace_of (run E (handleInteraction env ts n i) s)) in
  (List.length calls <= 4)%nat
  /\ (List.length (filter is_union calls) <= 1)%nat
  /\ (List.length (filter is_incr calls) <= 2)%nat
  /\ Forall (carries n (ChannelMessage_Id cm)) calls
  /\ (result_of (run E (handleInteraction env ts n i) s) = None -> calls <> [] ->
      List.length (filter is_incr calls) = 2%nat).
Proof.
  intros H1 H2 calls. subst calls.
  pose proof (handleInteraction_updates env ts E n i s s1 s2 cm c H1 H2) as Hu.
  unfold handled_updates in Hu.
  destruct (notEligibleForPopularPost c cm
            || moreThan7Days (fst (answer E _ TimeNow s2)) (ChannelMessage_CreatedAt cm));
    [destruct Hu as [Hc Hr] | destruct Hu as [(e & Hc & Hr) | (rolling & Hc & Hroll)]];
    rewrite Hc.
  - cbn [List.length filter is_union is_incr].
    repeat split; try lia; [constructor | intros _ H; exfalso; apply H; reflexivity].
  - cbn [List.length filter is_union is_incr].
    repeat split; try lia; [repeat constructor |].
    intros Hn. rewrite Hr in Hn. discriminate.
  - apply rolling_outcome_shape in Hroll.
    destruct Hroll as (Hl & Hu & Hi & Hf & Hn).
    cbn [List.length filter is_union is_incr]. repeat split; try lia.
    + constructor; [split; reflexivity | exact Hf].
    + intros Hr _. specialize (Hn Hr). lia.
Qed.

Lemma X13_handled_commands_bounded_witness :
  let calls := store_calls (trace_of (run FakeEnv
                 (handleInteraction "dev" (fun _ => "2014-05-13 17:53:20 +0000 UTC") 1
                                    (aLike 42)) fakeWorld)) in
  (List.length calls <= 4)%nat
  /\ (List.length (filter is_union calls) <= 1)%nat
  /\ (List.length (filter is_incr calls) <= 2)%nat
  /\ Forall (carries 1 (ChannelMessage_Id aPost)) calls
  /\ (result_of (run FakeEnv
        (handleInteraction "dev" (fun _ => "2014-05-13 17:53:20 +0000 UTC") 1
                           (aLike 42)) fakeWorld) = None -> calls <> [] ->
      List.length (filter is_incr calls) = 2%nat).
Proof.
  apply (X13_handled_commands_bounded "dev" (fun _ => "2014-05-13 17:53:20 +0000 UTC")
           FakeEnv 1 (aLike 42) fakeWorld fakeWorld fakeWorld aPost publicChannel);
    reflexivity.
Defined.

(** ** Likes and unlikes *)

Section Mirror.

Variable E : Env.
Variable R : St E -> St E -> Prop.
Variable m : Z.
Hypothesis Hsim : simulation E R.

Lemma mirrors_ret {A : Type} (a : A) : mirrors E R m (Ret a) (Ret a).
Proof. intros s s' Hs. repeat split. exact Hs. Qed.

Lemma mirrors_bind {A B : Type} (p q : Prog A) (f g : A -> Prog B) :
  mirrors E R m p q -> (forall a, mirrors E R m (f a) (g a)) ->
  mirrors E R m (bind p f) (bind q g).
Proof.
  intros Hp Hf s s' Hs. rewrite !run_bind.
  specialize (Hp s s' Hs).
  destruct (run E p s) as [[a tr] s1], (run E q s') as [[a' tr'] s1'].
  unfold result_of, trace_of in Hp; cbn [fst snd] in Hp.
  destruct Hp as (Ha & Ht & HR). subst a'.
  specialize (Hf a s1 s1' HR).
  destruct (run E (f a) s1) as [[b t2] s2], (run E (g a) s1') as [[b' t2'] s2'].
  unfold result_of, trace_of in Hf |- *; cbn [fst snd] in Hf |- *.
  destruct Hf as (Hb & Ht2 & HR2).
  repeat split; [exact Hb | | exact HR2].
  rewrite !store_calls_app, map_app, Ht, Ht2. reflexivity.
Qed.

Lemma mirrors_incr (key : string) (n item : Z) :
  mirrors E R m (trigger (RedisSortedSetIncrBy key n item))
                (trigger (RedisSortedSetIncrBy key m item)).
Proof.
  intros s s' Hs. destruct Hsim as [_ Hincr].
  specialize (Hincr key n m item s s' Hs). cbn [trigger run].
  destruct (answer E _ (RedisSortedSetIncrBy key n item) s) as [r s1],
           (answer E _ (RedisSortedSetIncrBy key m item) s') as [r' s1'].
  cbn [fst snd] in Hincr. destruct Hincr as [Hr HR]. subst r'.
  repeat split. exact HR.
Qed.

Lemma mirrors_same {A : Type} (p : Prog A) :
  avoids is_incr_event p -> mirrors E R m p p.
Proof.
  induction p as [a | T e k IH]; intros Hp; [apply mirrors_ret |].
  destruct Hp as [He Hk]. intros s s' Hs. destruct Hsim as [Hany _].
  specialize (Hany T e s s' Hs). cbn [run].
  destruct (answer E T e s) as [r s1], (answer E T e s') as [r' s1'].
  cbn [fst snd] in Hany. destruct Hany as [Hr HR]. subst r'.
  specialize (IH r (Hk r) s1 s1' HR).
  destruct (run E (k r) s1) as [[a tr] s2], (run E (k r) s1') as [[a' tr'] s2'].
  unfold result_of, trace_of in IH |- *; cbn [fst snd] in IH |- *.
  destruct IH as (Ha & Ht & HR2).
  repeat split; [exact Ha | | exact HR2].
  cbn [store_calls].
  destruct e; cbn [store_call is_incr_event] in He |- *;
    try discriminate; cbn [map retarget]; rewrite Ht; reflexivity.
Qed.

Lemma mirrors_event {T : Type} (e : Event T) :
  is_incr_event _ e = false -> mirrors E R m (trigger e) (trigger e).
Proof. intros He. apply mirrors_same, avoids_trigger, He. Qed.

Lemma saveToDailyBucket_mirrors (env : string) (c : Channel) (cm : ChannelMessage)
    (i : Interaction) (n : Z) :
  mirrors E R m (saveToDailyBucket env c cm i n) (saveToDailyBucket env c cm i m).
Proof.
  unfold saveToDailyBucket. apply mirrors_bind.
  - apply mirrors_same, GetDailyKey_avoids. reflexivity.
  - intros k. apply mirrors_bind; [apply mirrors_incr | intros; apply mirrors_ret].
Qed.

Lemma saveToSevenDayBucket_mirrors (env : string) (c : Channel) (cm : ChannelMessage)
    (i : Interaction) (n : Z) :
  mirrors E R m (saveToSevenDayBucket env c cm i n) (saveToSevenDayBucket env c cm i m).
Proof.
  unfold saveToSevenDayBucket. apply mirrors_bind.
  { apply mirrors_same, GetSevenDayKey_avoids. reflexivity. }
  intros key. apply mirrors_bind; [apply mirrors_event; reflexivity |].
  intros found. destruct (negb found).
  - apply mirrors_bind.
    { apply mirrors_same, createSevenDayCombinedBucket_avoids; reflexivity. }
    intros [e |]; [apply mirrors_ret |].
    apply mirrors_bind; [apply mirrors_incr | intros; apply mirrors_ret].
  - apply mirrors_bind; [apply mirrors_incr | intros; apply mirrors_ret].
Qed.

Lemma handleInteraction_mirrors (env : string) (ts : Time -> string)
    (i : Interaction) (n : Z) :
  mirrors E R m (handleInteraction env ts n i) (handleInteraction env ts m i).
Proof.
  unfold handleInteraction.
  apply mirrors_bind; [apply mirrors_event; reflexivity |].
  intros [cm | e]; [| apply mirrors_ret].
  apply mirrors_bind; [apply mirrors_event; reflexivity |].
  intros [c | e]; [| apply mirrors_ret].
  destruct (notEligibleForPopularPost c cm).
  { apply mirrors_bind; [apply mirrors_event; reflexivity | intros; apply mirrors_ret]. }
  apply mirrors_bind.
  { unfold createdMoreThan7DaysAgo.
    apply mirrors_bind; [apply mirrors_event; reflexivity | intros; apply mirrors_ret]. }
  intros [|].
  { apply mirrors_bind; [apply mirrors_event; reflexivity | intros; apply mirrors_ret]. }
  apply mirrors_bind; [apply saveToDailyBucket_mirrors |].
  intros [e |]; [apply mirrors_ret |].
  apply mirrors_bind; [apply saveToSevenDayBucket_mirrors |].
  intros [e |]; apply mirrors_ret.
Qed.

End Mirror.

Lemma simulation_flip (E : Env) (R : St E -> St E -> Prop) :
  simulation E R -> simulation E (fun a b => R b a).
Proof.
  intros [Hany Hincr]. split.
  - intros T e s s' Hs. destruct (Hany T e s' s Hs) as [Hr HR].
    split; [symmetry; exact Hr | exact HR].
  - intros key n m item s s' Hs. destruct (Hincr key m n item s' s Hs) as [Hr HR].
    split; [symmetry; exact Hr | exact HR].
Qed.

(** X14: an unlike is the mirror image of a like.  In an environment whose
    replies do not depend on the scores it holds, [InteractionDeleted] run on
    an interaction sends the Score Store the very commands [InteractionSaved]
    sends for it, to the same keys, in the same order and with the same
    replies, except that every increment carries -1 where the like carried
    +1; the two runs return the same result and leave related states. *)
Theorem X14_unlike_mirrors_like
    (env : string) (ts : Time -> string) (E : Env) (R : St E -> St E -> Prop)
    (i : Interaction) (s s' : St E) :
  simulation E R -> R s s' ->
  result_of (run E (InteractionDeleted env ts i) s')
    = result_of (run E (InteractionSaved env ts i) s)
  /\ store_calls (trace_of (run E (InteractionDeleted env ts i) s'))
     = map (retarget (-1)) (store_calls (trace_of (run E (InteractionSaved env ts i) s)))
  /\ store_calls (trace_of (run E (InteractionSaved env ts i) s))
     = map (retarget 1) (store_calls (trace_of (run E (InteractionDeleted env ts i) s')))
  /\ R (snd (run E (InteractionSaved env ts i) s))
       (snd (run E (InteractionDeleted env ts i) s')).
Proof.
  intros Hsim Hs. unfold InteractionDeleted, InteractionSaved.
  destruct (handleInteraction_mirrors E R (-1) Hsim env ts i 1 s s' Hs) as (Hr & Ht & HR).
  destruct (handleInteraction_mirrors E (fun a b => R b a) 1 (simulation_flip E R Hsim)
              env ts i (-1) s' s Hs) as (_ & Ht' & _).
  repeat split; assumption.
Qed.

Lemma X14_unlike_mirrors_like_witness :
  result_of (run FakeEnv
     (InteractionDeleted "dev" (fun _ => "2014-05-13 17:53:20 +0000 UTC") (aLike 42))
     fakeWorld)
    = result_of (run FakeEnv
        (InteractionSaved "dev" (fun _ => "2014-05-13 17:53:20 +0000 UTC") (aLike 42))
        fakeWorld)
  /\ store_calls (trace_of (run FakeEnv
        (InteractionDeleted "dev" (fun _ => "2014-05-13 17:53:20 +0000 UTC") (aLike 42))
        fakeWorld))
     = map (retarget (-1)) (store_calls (trace_of (run FakeEnv
        (InteractionSaved "dev" (fun _ => "2014-05-13 17:53:20 +0000 UTC") (aLike 42))
        fakeWorld)))
  /\ store_calls (trace_of (run FakeEnv
        (InteractionSaved "dev" (fun _ => "2014-05-13 17:53:20 +0000 UTC") (aLike 42))
        fakeWorld))
     = map (retarget 1) (store_calls (trace_of (run FakeEnv
        (InteractionDeleted "dev" (fun _ => "2014-05-13 17:53:20 +0000 UTC") (aLike 42))
        fakeWorld)))
  /\ snd (run FakeEnv
        (InteractionSaved "dev" (fun _ => "2014-05-13 17:53:20 +0000 UTC") (aLike 42))
        fakeWorld)
     = snd (run FakeEnv
        (InteractionDeleted "dev" (fun _ => "2014-05-13 17:53:20 +0000 UTC") (aLike 42))
        fakeWorld).
Proof.
  apply (X14_unlike_mirrors_like "dev" (fun _ => "2014-05-13 17:53:20 +0000 UTC")
           FakeEnv (@eq Fake) (aLike 42) fakeWorld fakeWorld).
  - split.
    + intros T e s s' Hs. rewrite Hs. split; reflexivity.
    + intros key n m item s s' Hs. rewrite Hs. split; reflexivity.
  - reflexivity.
Defined.

(** ** Messages without a creation date *)

(** X15: a message whose creation timestamp is the zero time is never scored
    once the clock reads 1970 or later: it is stale by some two thousand
    years, so the handler skips it, and the fallback of [GetDailyKey] to the
    current day is not reached from the handler. *)
Theorem X15_undated_message_is_skipped
    (env : string) (ts : Time -> string) (E : Env) (n : Z) (i : Interaction)
    (s s1 s2 : St E) (cm : ChannelMessage) (c : Channel) :
  answer E _ (ChannelMessageById (Interaction_MessageId i)) s = (Ok cm, s1) ->
  answer E _ (ChannelById (ChannelMessage_InitialChannelId cm)) s1 = (Ok c, s2) ->
  IsZero (ChannelMessage_CreatedAt cm) = true ->
  wf_time (fst (answer E _ TimeNow s2)) ->
  0 <= unix_sec (fst (answer E _ TimeNow s2)) ->
  store_calls (trace_of (run E (handleInteraction env ts n i) s)) = []
  /\ result_of (run E (handleInteraction env ts n i) s) = None.
Proof.
  intros H1 H2 Hz W Hnow. unfold handleInteraction.
  rewrite run_trigger_bind, H1, run_trigger_bind, H2.
  destruct (notEligibleForPopularPost c cm).
  { cbn [bind trigger run]. answer_cases E. split; reflexivity. }
  unfold createdMoreThan7DaysAgo. cbn [bind trigger run].
  destruct (answer E _ TimeNow s2) as [now s3]. cbn [fst] in W, Hnow.
  assert (Hstale : moreThan7Days now (ChannelMessage_CreatedAt cm) = true).
  { apply moreThan7Days_iff.
    unfold IsZero in Hz. apply andb_prop in Hz. destruct Hz as [Hsec Hns].
    apply Z.eqb_eq in Hsec, Hns.
    unfold wf_time in W. unfold unix_nano, sevenDays, unixToInternal in *. lia. }
  rewrite Hstale. cbn [bind trigger run]. answer_cases E. split; reflexivity.
Qed.

Lemma X15_undated_message_is_skipped_witness :
  store_calls (trace_of (run FakeEnv
     (handleInteraction "dev" (fun _ => "2014-05-13 17:53:20 +0000 UTC") 1 (aLike 44))
     undatedWorld)) = []
  /\ result_of (run FakeEnv
       (handleInteraction "dev" (fun _ => "2014-05-13 17:53:20 +0000 UTC") 1 (aLike 44))
       undatedWorld) = None.
Proof.
  apply (X15_undated_message_is_skipped "dev" (fun _ => "2014-05-13 17:53:20 +0000 UTC")
           FakeEnv 1 (aLike 44) undatedWorld undatedWorld undatedWorld
           anUndatedPost publicChannel);
    try reflexivity; unfold wf_time; simpl; lia.
Defined.
